(** * josepy.util: comparable wrappers, ImmutableMap and frozendict

    A shallow embedding of [src/josepy/util.py].  Python objects become
    records, methods become functions that take the receiver first, and a
    method that can raise returns a [result].  The interpreter's builtins
    the module calls ([hash], [repr], [sorted], the [==] of [dict], the
    [__eq__] that [collections.abc.Mapping] mixes in) are written out next
    to the code that calls them. *)

From Stdlib Require Import ZArith String Ascii List Bool Lia.
From stdpp Require Import base decidable list strings sorting pretty.

Open Scope string_scope.
Open Scope Z_scope.

(** ** Exceptions and results *)

Inductive exn : Type :=
| TypeError (msg : string)
| KeyError (key : string)
| AttributeError (msg : string)
| AssertionError.

Inductive result (A : Type) : Type :=
| Ok (a : A)
| Raise (e : exn).

Arguments Ok {A} a.
Arguments Raise {A} e.

#[global] Instance result_ret : MRet result := fun A a => Ok a.

#[global] Instance result_bind : MBind result := fun A B k r =>
  match r with
  | Ok a => k a
  | Raise e => Raise e
  end.

(** Evaluates the computations of a generator expression from left to
    right; the first exception stops the evaluation. *)
Fixpoint collect {A : Type} (rs : list (result A)) : result (list A) :=
  match rs with
  | [] => Ok []
  | r :: rest => a ← r; l ← collect rest; Ok (a :: l)
  end.



(** ** Values

    The values stored in records and mappings: [None], integers, text,
    byte strings, lists of integers as the example of a value that has
    no hash, and what attribute lookup finds on a class rather than in
    a slot: a method or another class-level attribute, kept by the name
    of its class and its own name. *)

Definition bytes : Type := list Byte.byte.

Inductive pyval : Type :=
| PyNone
| PyInt (z : Z)
| PyStr (s : string)
| PyBytes (b : bytes)
| PyList (l : list Z)
| PyClassAttr (owner name : string).

#[global] Instance byte_eq_dec : EqDecision Byte.byte := Byte.byte_eq_dec.

#[global] Instance pyval_eq_dec : EqDecision pyval.
Proof. solve_decision. Defined.

(** [v == w] on these values: equal type and equal content. *)
Definition py_eqb (v w : pyval) : bool := bool_decide (v = w).

(** The outcome of a rich comparison method. *)
Inductive cmp_result : Type :=
| CmpBool (b : bool)
| NotImplemented.

(** ** Builtins

    [hash] of an integer, a string, a byte string, [None], a class and a
    method is the interpreter's business (string hashes change from one process to
    the next); [hash] of a tuple is a function of the hashes of its items.
    [repr] of a value is the interpreter's too. *)

Record builtins : Type := {
  hash_int : Z -> Z;
  hash_str : string -> Z;
  hash_bytes : bytes -> Z;
  hash_none : Z;
  hash_class : string -> Z;
  hash_attr : string -> string -> Z;
  hash_tuple : list Z -> Z;
  repr : pyval -> string
}.

Definition py_hash (B : builtins) (v : pyval) : result Z :=
  match v with
  | PyNone => Ok (hash_none B)
  | PyInt z => Ok (hash_int B z)
  | PyStr s => Ok (hash_str B s)
  | PyBytes b => Ok (hash_bytes B b)
  | PyList _ => Raise (TypeError "unhashable type: 'list'")
  | PyClassAttr owner name => Ok (hash_attr B owner name)
  end.

(** [hash(tuple(items))]: the items are hashed in order. *)
Definition hash_of_tuple (B : builtins) (items : list (result Z)) : result Z :=
  hs ← collect items; Ok (hash_tuple B hs).

(** [sep.join(parts)] *)
Fixpoint join (sep : string) (parts : list string) : string :=
  match parts with
  | [] => ""
  | [p] => p
  | p :: rest => p ++ sep ++ join sep rest
  end.

(** ** dict

    A [dict] with string keys, in insertion order; every key occurs once. *)

Definition dict : Type := list (string * pyval).

Definition dict_keys (d : dict) : list string := map fst d.

Fixpoint dict_get (key : string) (d : dict) : option pyval :=
  match d with
  | [] => None
  | (k, v) :: rest => if String.eqb k key then Some v else dict_get key rest
  end.

(** [d[key] = value]: an existing key keeps its place. *)
Fixpoint dict_set (key : string) (value : pyval) (d : dict) : dict :=
  match d with
  | [] => [(key, value)]
  | (k, v) :: rest =>
      if String.eqb k key then (k, value) :: rest
      else (k, v) :: dict_set key value rest
  end.

(** [d.pop(key)] *)
Fixpoint dict_pop (key : string) (d : dict) : option (pyval * dict) :=
  match d with
  | [] => None
  | (k, v) :: rest =>
      if String.eqb k key then Some (v, rest)
      else match dict_pop key rest with
           | Some (w, rest') => Some (w, (k, v) :: rest')
           | None => None
           end
  end.

(** [dict(pairs)] and [{**d, **pairs}]: later bindings win. *)
Definition dict_update (d : dict) (pairs : list (string * pyval)) : dict :=
  fold_left (fun acc kv => dict_set (fst kv) (snd kv) acc) pairs d.

Definition dict_of (pairs : list (string * pyval)) : dict := dict_update [] pairs.

(** [d1 == d2] for two dicts: the same number of keys, and every key of
    [d1] is in [d2] with an equal value. *)
Definition dict_eqb (d1 d2 : dict) : bool :=
  (length d1 =? length d2)%nat &&
  forallb (fun kv => match dict_get (fst kv) d2 with
                     | Some w => py_eqb (snd kv) w
                     | None => false
                     end) d1.

Definition str_in (s : string) (l : list string) : bool :=
  existsb (String.eqb s) l.

(** [set(l1) == set(l2)] *)
Definition set_eqb (l1 l2 : list string) : bool :=
  forallb (fun s => str_in s l2) l1 && forallb (fun s => str_in s l1) l2.

(** [sorted(keys)] for string keys: ascending, by code point. *)
Definition sorted (keys : list string) : list string :=
  merge_sort String.le keys.

(** An argument that is an instance of the class a method expects, or
    some other object. *)
Inductive operand (T : Type) : Type :=
| Instance (x : T)
| Foreign (v : pyval).

Arguments Instance {T} x.
Arguments Foreign {T} v.

(** ** OpenSSL.crypto: certificates and certificate requests

    An object of [OpenSSL.crypto] is known here by its class and by what
    [dump_certificate] or [dump_certificate_request] writes for it in
    each of the three encodings. *)

Module crypto.

Inductive filetype : Type := FILETYPE_ASN1 | FILETYPE_PEM | FILETYPE_TEXT.

Record encodings : Type := { asn1 : bytes; pem : bytes; text : bytes }.

Inductive object : Type :=
| X509 (enc : encodings)
| X509Req (enc : encodings).

Definition encode (ft : filetype) (enc : encodings) : bytes :=
  match ft with
  | FILETYPE_ASN1 => asn1 enc
  | FILETYPE_PEM => pem enc
  | FILETYPE_TEXT => text enc
  end.

Definition dump_certificate (ft : filetype) (cert : encodings) : bytes :=
  encode ft cert.

Definition dump_certificate_request (ft : filetype) (req : encodings) : bytes :=
  encode ft req.

End crypto.

(** ** class ComparableX509 *)

Module ComparableX509.

Record t : Type := { wrapped : crypto.object }.

Definition __init__ (wrapped : operand crypto.object) : result t :=
  match wrapped with
  | Instance o => Ok {| wrapped := o |}
  | Foreign _ => Raise AssertionError
  end.

Definition _dump (self : t) (ft : crypto.filetype) : bytes :=
  match wrapped self with
  | crypto.X509 cert => crypto.dump_certificate ft cert
  | crypto.X509Req req => crypto.dump_certificate_request ft req
  end.

Definition __eq__ (self : t) (other : operand t) : cmp_result :=
  match other with
  | Foreign _ => NotImplemented
  | Instance o =>
      CmpBool (bool_decide (_dump self crypto.FILETYPE_ASN1
                            = _dump o crypto.FILETYPE_ASN1))
  end.

Definition __hash__ (B : builtins) (self : t) : result Z :=
  hash_of_tuple B [Ok (hash_class B "ComparableX509");
                   Ok (hash_bytes B (_dump self crypto.FILETYPE_ASN1))].

End ComparableX509.

(** ** cryptography: asymmetric keys

    A key of [cryptography.hazmat.primitives.asymmetric] is known here by
    its class and its numbers.  RSA and elliptic-curve keys give them
    through [private_numbers()] and [public_numbers()]; for an OKP key the
    wrapper reads [curve.name] and [x] from the key itself. *)

Module rsa.
Record RSAPublicNumbers : Type := { n : Z; e : Z }.
Record RSAPrivateNumbers : Type := {
  p : Z; q : Z; d : Z; dmp1 : Z; dmq1 : Z; iqmp : Z;
  public_numbers : RSAPublicNumbers
}.
End rsa.

Module ec.
Record EllipticCurvePublicNumbers : Type := {
  curve_name : string; x : Z; y : Z
}.
Record EllipticCurvePrivateNumbers : Type := {
  private_value : Z;
  public_numbers : EllipticCurvePublicNumbers
}.
End ec.

Module okp.
(** ed25519, ed448, x25519 and x448 *)
Inductive family : Type := Ed25519 | Ed448 | X25519 | X448.
Record material : Type := { curve_name : string; x : bytes }.
End okp.

Inductive key_class : Type :=
| RSAPrivateKey_cls
| RSAPublicKey_cls
| EllipticCurvePrivateKey_cls
| EllipticCurvePublicKey_cls
| OKPPrivateKey_cls (f : okp.family)
| OKPPublicKey_cls (f : okp.family).

Inductive key : Type :=
| RSAPrivateKey (numbers : rsa.RSAPrivateNumbers)
| RSAPublicKey (numbers : rsa.RSAPublicNumbers)
| EllipticCurvePrivateKey (numbers : ec.EllipticCurvePrivateNumbers)
| EllipticCurvePublicKey (numbers : ec.EllipticCurvePublicNumbers)
| OKPPrivateKey (f : okp.family) (pub : okp.material) (secret : bytes)
| OKPPublicKey (f : okp.family) (pub : okp.material).

(** [type(k)] *)
Definition type_of_key (k : key) : key_class :=
  match k with
  | RSAPrivateKey _ => RSAPrivateKey_cls
  | RSAPublicKey _ => RSAPublicKey_cls
  | EllipticCurvePrivateKey _ => EllipticCurvePrivateKey_cls
  | EllipticCurvePublicKey _ => EllipticCurvePublicKey_cls
  | OKPPrivateKey f _ _ => OKPPrivateKey_cls f
  | OKPPublicKey f _ => OKPPublicKey_cls f
  end.

(** [k.public_key()]: a private key derives its public key; a public key
    has no such method. *)
Definition key_public_key (k : key) : result key :=
  match k with
  | RSAPrivateKey numbers => Ok (RSAPublicKey (rsa.public_numbers numbers))
  | EllipticCurvePrivateKey numbers =>
      Ok (EllipticCurvePublicKey (ec.public_numbers numbers))
  | OKPPrivateKey f pub _ => Ok (OKPPublicKey f pub)
  | RSAPublicKey _ | EllipticCurvePublicKey _ | OKPPublicKey _ _ =>
      Raise (AttributeError "public_key")
  end.

(** [hasattr(k, 'public_key')] *)
Definition has_public_key (k : key) : bool :=
  match key_public_key k with
  | Ok _ => true
  | Raise _ => false
  end.

(** [k.public_numbers().public_key(backend)]: the public key that has the
    numbers of the public key [k]. *)
Definition key_from_public_numbers (k : key) : result key :=
  match k with
  | RSAPublicKey numbers => Ok (RSAPublicKey numbers)
  | EllipticCurvePublicKey numbers => Ok (EllipticCurvePublicKey numbers)
  | _ => Raise (AttributeError "public_numbers")
  end.

(** What [private_numbers()] or [public_numbers()] returns. *)
Inductive numbers : Type :=
| RSAPrivate (priv : rsa.RSAPrivateNumbers)
| RSAPublic (pub : rsa.RSAPublicNumbers)
| ECPrivate (priv : ec.EllipticCurvePrivateNumbers)
| ECPublic (pub : ec.EllipticCurvePublicNumbers).

#[global] Instance rsa_public_eq_dec : EqDecision rsa.RSAPublicNumbers.
Proof. solve_decision. Defined.

#[global] Instance rsa_private_eq_dec : EqDecision rsa.RSAPrivateNumbers.
Proof. solve_decision. Defined.

#[global] Instance ec_public_eq_dec : EqDecision ec.EllipticCurvePublicNumbers.
Proof. solve_decision. Defined.

#[global] Instance ec_private_eq_dec : EqDecision ec.EllipticCurvePrivateNumbers.
Proof. solve_decision. Defined.

#[global] Instance numbers_eq_dec : EqDecision numbers.
Proof. solve_decision. Defined.

#[global] Instance okp_family_eq_dec : EqDecision okp.family.
Proof. solve_decision. Defined.

#[global] Instance key_class_eq_dec : EqDecision key_class.
Proof. solve_decision. Defined.

(** [k.private_numbers()], where [k] has the method: RSA and
    elliptic-curve private keys have it, OKP keys do not. *)
Definition key_private_numbers (k : key) : option numbers :=
  match k with
  | RSAPrivateKey priv => Some (RSAPrivate priv)
  | EllipticCurvePrivateKey priv => Some (ECPrivate priv)
  | _ => None
  end.

(** [k.public_numbers()], where [k] has the method: RSA and
    elliptic-curve public keys have it, OKP keys do not. *)
Definition key_public_numbers (k : key) : option numbers :=
  match k with
  | RSAPublicKey pub => Some (RSAPublic pub)
  | EllipticCurvePublicKey pub => Some (ECPublic pub)
  | _ => None
  end.

(** ** class ComparableKey and its subclasses *)

Module ComparableKey.

Inductive cls : Type :=
| ComparableKey
| ComparableRSAKey
| ComparableECKey
| ComparableOKPKey.

Definition __name__ (c : cls) : string :=
  match c with
  | ComparableKey => "ComparableKey"
  | ComparableRSAKey => "ComparableRSAKey"
  | ComparableECKey => "ComparableECKey"
  | ComparableOKPKey => "ComparableOKPKey"
  end.

Record t : Type := { __class__ : cls; _wrapped : key }.

(** What a call returns: a wrapper, or the object made by calling a key
    class with no argument. *)
Inductive returned : Type :=
| Wrapper (w : t)
| BareInstance (c : key_class).

Definition __init__ (c : cls) (wrapped : key) : t :=
  {| __class__ := c; _wrapped := wrapped |}.

(** [issubclass(c, base)] among the four classes. *)
Definition issubclass (c base : cls) : bool :=
  match base, c with
  | ComparableKey, _ => true
  | ComparableRSAKey, ComparableRSAKey => true
  | ComparableECKey, ComparableECKey => true
  | ComparableOKPKey, ComparableOKPKey => true
  | _, _ => false
  end.

(** The numbers of two keys of one class compare field by field. *)
Definition __eq__ (self : t) (other : operand t) : cmp_result :=
  match other with
  | Foreign _ => NotImplemented
  | Instance o =>
      if negb (issubclass (__class__ o) (__class__ self))
         || negb (bool_decide (type_of_key (_wrapped self)
                               = type_of_key (_wrapped o)))
      then NotImplemented
      else
        match key_private_numbers (_wrapped self) with
        | Some mine =>
            CmpBool (bool_decide (Some mine = key_private_numbers (_wrapped o)))
        | None =>
            match key_public_numbers (_wrapped self) with
            | Some mine =>
                CmpBool
                  (bool_decide (Some mine = key_public_numbers (_wrapped o)))
            | None => NotImplemented
            end
        end
  end.

Definition ComparableRSAKey__hash__ (B : builtins) (self : t) : result Z :=
  match _wrapped self with
  | RSAPrivateKey priv =>
      let pub := rsa.public_numbers priv in
      hash_of_tuple B
        [Ok (hash_class B (__name__ (__class__ self)));
         Ok (hash_int B (rsa.p priv)); Ok (hash_int B (rsa.q priv));
         Ok (hash_int B (rsa.dmp1 priv)); Ok (hash_int B (rsa.dmq1 priv));
         Ok (hash_int B (rsa.iqmp priv));
         Ok (hash_int B (rsa.n pub)); Ok (hash_int B (rsa.e pub))]
  | RSAPublicKey pub =>
      hash_of_tuple B
        [Ok (hash_class B (__name__ (__class__ self)));
         Ok (hash_int B (rsa.n pub)); Ok (hash_int B (rsa.e pub))]
  | _ => Raise (TypeError "__hash__ method should return an integer")
  end.

Definition ComparableECKey__hash__ (B : builtins) (self : t) : result Z :=
  match _wrapped self with
  | EllipticCurvePrivateKey priv =>
      let pub := ec.public_numbers priv in
      hash_of_tuple B
        [Ok (hash_class B (__name__ (__class__ self)));
         Ok (hash_str B (ec.curve_name pub));
         Ok (hash_int B (ec.x pub)); Ok (hash_int B (ec.y pub));
         Ok (hash_int B (ec.private_value priv))]
  | EllipticCurvePublicKey pub =>
      hash_of_tuple B
        [Ok (hash_class B (__name__ (__class__ self)));
         Ok (hash_str B (ec.curve_name pub));
         Ok (hash_int B (ec.x pub)); Ok (hash_int B (ec.y pub))]
  | _ => Raise (TypeError "__hash__ method should return an integer")
  end.

Definition ComparableOKPKey__hash__ (B : builtins) (self : t) : result Z :=
  match _wrapped self with
  | OKPPrivateKey _ pub _ | OKPPublicKey _ pub =>
      hash_of_tuple B
        [Ok (hash_class B (__name__ (__class__ self)));
         Ok (hash_str B (okp.curve_name pub));
         Ok (hash_bytes B (okp.x pub))]
  | EllipticCurvePrivateKey _ | EllipticCurvePublicKey _ =>
      Raise (AttributeError "x")
  | RSAPrivateKey _ | RSAPublicKey _ => Raise (AttributeError "curve")
  end.

(** [hash(self)]: the base class sets [__hash__ = NotImplemented], which
    cannot be called. *)
Definition __hash__ (B : builtins) (self : t) : result Z :=
  match __class__ self with
  | ComparableKey =>
      Raise (TypeError "'NotImplementedType' object is not callable")
  | ComparableRSAKey => ComparableRSAKey__hash__ B self
  | ComparableECKey => ComparableECKey__hash__ B self
  | ComparableOKPKey => ComparableOKPKey__hash__ B self
  end.

Definition is_private (self : t) : bool :=
  match _wrapped self with
  | OKPPrivateKey _ _ _ => true
  | _ => false
  end.

Definition ComparableKey_public_key (self : t) : result returned :=
  k ← key_public_key (_wrapped self);
  Ok (Wrapper (__init__ (__class__ self) k)).

Definition ComparableECKey_public_key (self : t) : result returned :=
  k ← (if has_public_key (_wrapped self)
       then key_public_key (_wrapped self)
       else key_from_public_numbers (_wrapped self));
  Ok (Wrapper (__init__ (__class__ self) k)).

Definition ComparableOKPKey_public_key (self : t) : result returned :=
  k ← key_public_key (_wrapped self);
  Ok (BareInstance (type_of_key k)).

(** [self.public_key()] *)
Definition public_key (self : t) : result returned :=
  match __class__ self with
  | ComparableKey | ComparableRSAKey => ComparableKey_public_key self
  | ComparableECKey => ComparableECKey_public_key self
  | ComparableOKPKey => ComparableOKPKey_public_key self
  end.

End ComparableKey.

(** ** class ImmutableMap

    A record type is a subclass of [ImmutableMap] that sets [__slots__].
    An instance keeps one value per slot.  Attribute lookup finds a slot
    first, then what the class body of [ImmutableMap] defines, then what
    the class gets elsewhere ([Mapping], [Hashable], [object], the body
    of the subclass), listed in [other_attributes]. *)

Module ImmutableMap.

Record type : Type := {
  __name__ : string;
  __slots__ : list string;
  other_attributes : list string
}.

Record t : Type := { __class__ : type; slot_values : dict }.

(** The names the class body of [ImmutableMap] binds. *)
Definition class_body : list string :=
  ["__slots__"; "__init__"; "update"; "__getitem__"; "__iter__";
   "__len__"; "__hash__"; "__setattr__"; "__repr__"].

(** [for slot in self.__slots__: object.__setattr__(self, slot,
    kwargs.pop(slot))] *)
Fixpoint store_slots (slots : list string) (kwargs : dict) (stored : dict)
  : result dict :=
  match slots with
  | [] => Ok stored
  | slot :: rest =>
      match dict_pop slot kwargs with
      | None => Raise (KeyError slot)
      | Some (value, kwargs') =>
          store_slots rest kwargs' (dict_set slot value stored)
      end
  end.

Definition __init__ (cls : type) (kwargs : dict) : result t :=
  if negb (set_eqb (dict_keys kwargs) (__slots__ cls)) then
    Raise (TypeError
      ("__init__() takes exactly the following arguments: "
       ++ join ", " (__slots__ cls) ++ " ("
       ++ (match kwargs with
           | [] => "none"
           | _ => join ", " (dict_keys kwargs)
           end)
       ++ " given)"))
  else
    stored ← store_slots (__slots__ cls) kwargs [];
    Ok {| __class__ := cls; slot_values := stored |}.

(** An instance that [__init__] returned.  The keyword arguments of a
    call name each key once. *)
Definition constructed (r : t) : Prop :=
  exists kwargs,
    NoDup (dict_keys kwargs) /\
    __init__ (__class__ r) kwargs = Ok r.

(** [getattr(self, name)] *)
Definition getattr (self : t) (name : string) : result pyval :=
  if str_in name (__slots__ (__class__ self)) then
    match dict_get name (slot_values self) with
    | Some value => Ok value
    | None => Raise (AttributeError name)
    end
  else if str_in name class_body then Ok (PyClassAttr "ImmutableMap" name)
  else if str_in name (other_attributes (__class__ self)) then
    Ok (PyClassAttr (__name__ (__class__ self)) name)
  else Raise (AttributeError name).

Definition __getitem__ (self : t) (key : string) : result pyval :=
  match getattr self key with
  | Ok value => Ok value
  | Raise (AttributeError _) => Raise (KeyError key)
  | Raise e => Raise e
  end.

Definition __iter__ (self : t) : list string := __slots__ (__class__ self).

Definition __len__ (self : t) : nat := length (__slots__ (__class__ self)).

(** [Mapping.items]: [(key, self[key])] for every key of [__iter__]. *)
Definition items (self : t) : result (list (string * pyval)) :=
  collect (map (fun key => value ← __getitem__ self key; Ok (key, value))
               (__iter__ self)).

Definition update (self : t) (kwargs : dict) : result t :=
  own ← items self;
  __init__ (__class__ self) (dict_update (dict_of own) kwargs).

Definition __hash__ (B : builtins) (self : t) : result Z :=
  hash_of_tuple B
    (map (fun slot => value ← getattr self slot; py_hash B value)
         (__slots__ (__class__ self))).

(** The outcome, and the instance as the call leaves it. *)
Definition __setattr__ (self : t) (name : string) (value : pyval)
  : result unit * t :=
  (Raise (AttributeError "can't set attribute"), self).

(** [self[key] = value]: neither the class nor [Mapping] defines
    [__setitem__], so the interpreter refuses the statement. *)
Definition setitem (self : t) (key : string) (value : pyval)
  : result unit * t :=
  (Raise (TypeError ("'" ++ __name__ (__class__ self)
                     ++ "' object does not support item assignment")),
   self).

Definition __repr__ (B : builtins) (self : t) : result string :=
  own ← items self;
  Ok (__name__ (__class__ self) ++ "("
      ++ join ", " (map (fun kv => fst kv ++ "=" ++ repr B (snd kv)) own)
      ++ ")").

End ImmutableMap.

(** ** class frozendict *)

Module frozendict.

Record t : Type := { _items : dict; _keys : list string }.

(** A positional argument: a [Mapping], known by its bindings, or
    something else. *)
Definition arg : Type := operand dict.

Definition __init__ (args : list arg) (kwargs : dict) : result t :=
  items ← (match kwargs, args with
           | _ :: _, [] => Ok (dict_of kwargs)
           | _, [Instance mapping] => Ok mapping
           | _, _ => Raise (TypeError "")
           end);
  Ok {| _items := items; _keys := sorted (dict_keys items) |}.

Definition __getitem__ (self : t) (key : string) : result pyval :=
  match dict_get key (_items self) with
  | Some value => Ok value
  | None => Raise (KeyError key)
  end.

Definition __iter__ (self : t) : list string := _keys self.

Definition __len__ (self : t) : nat := length (_items self).

Definition _sorted_items (self : t) : result (list (string * pyval)) :=
  collect (map (fun key => value ← __getitem__ self key; Ok (key, value))
               (_keys self)).

(** [hash(self._sorted_items())]: a tuple of [(key, value)] tuples. *)
Definition __hash__ (B : builtins) (self : t) : result Z :=
  sorted_items ← _sorted_items self;
  hash_of_tuple B
    (map (fun kv => hash_of_tuple B [Ok (hash_str B (fst kv));
                                     py_hash B (snd kv)])
         sorted_items).


Definition __setattr__ (self : t) (name : string) (value : pyval)
  : result unit * t :=
  (Raise (AttributeError "can't set attribute"), self).

(** [self[key] = value]: no [__setitem__] here either. *)
Definition setitem (self : t) (key : string) (value : pyval)
  : result unit * t :=
  (Raise (TypeError "'frozendict' object does not support item assignment"),
   self).

Definition __repr__ (B : builtins) (self : t) : result string :=
  sorted_items ← _sorted_items self;
  Ok ("frozendict("
      ++ join ", " (map (fun kv => fst kv ++ "=" ++ repr B (snd kv))
                        sorted_items)
      ++ ")").

(** [Mapping.items] *)
Definition items (self : t) : result (list (string * pyval)) :=
  collect (map (fun key => value ← __getitem__ self key; Ok (key, value))
               (__iter__ self)).

(** An instance that [__init__] returned, for named bindings and
    mappings that name each key once. *)
Definition constructed (f : t) : Prop :=
  exists args kwargs,
    NoDup (dict_keys kwargs) /\
    (forall mapping, Instance mapping ∈ args -> NoDup (dict_keys mapping)) /\
    __init__ args kwargs = Ok f.

End frozendict.

(** ** collections.abc.Mapping

    Neither class defines [__eq__]: both get the one of [Mapping],
    [dict(self.items()) == dict(other.items())] when [other] is a
    [Mapping] and [NotImplemented] otherwise. *)

Module Mapping.

Inductive t : Type :=
| Record_ (r : ImmutableMap.t)
| Frozen (f : frozendict.t)
| Dict (d : dict).

Definition items (m : t) : result (list (string * pyval)) :=
  match m with
  | Record_ r => ImmutableMap.items r
  | Frozen f => frozendict.items f
  | Dict d => Ok d
  end.

Definition __eq__ (self : t) (other : operand t) : result cmp_result :=
  match other with
  | Foreign _ => Ok NotImplemented
  | Instance o =>
      mine ← items self;
      theirs ← items o;
      Ok (CmpBool (dict_eqb (dict_of mine) (dict_of theirs)))
  end.

(** [self[key]], [iter(self)] and [len(self)], by the class of [self]. *)
Definition __getitem__ (m : t) (key : string) : result pyval :=
  match m with
  | Record_ r => ImmutableMap.__getitem__ r key
  | Frozen f => frozendict.__getitem__ f key
  | Dict d =>
      match dict_get key d with
      | Some value => Ok value
      | None => Raise (KeyError key)
      end
  end.

Definition __iter__ (m : t) : list string :=
  match m with
  | Record_ r => ImmutableMap.__iter__ r
  | Frozen f => frozendict.__iter__ f
  | Dict d => dict_keys d
  end.

Definition __len__ (m : t) : nat :=
  match m with
  | Record_ r => ImmutableMap.__len__ r
  | Frozen f => frozendict.__len__ f
  | Dict d => length d
  end.



(** [list(self.keys())] and [list(self.values())] *)
Definition keys (m : t) : list string := __iter__ m.

Definition values (m : t) : result (list pyval) :=
  collect (map (__getitem__ m) (__iter__ m)).

End Mapping.

(** ** The mapping a frozendict is built from

    [frozendict.__init__] stores [args[0]] itself, and for named bindings
    the fresh [dict(kwargs)].  To tell the two apart, dicts live at
    addresses in a heap, and a frozendict holds the address of its
    [_items] next to its own tuple [_keys]. *)

Module heap.

Record t : Type := { cell : nat -> dict; next : nat }.

(** A new dict object. *)
Definition alloc (h : t) (d : dict) : t * nat :=
  ({| cell := fun a => if Nat.eqb a (next h) then d else cell h a;
      next := S (next h) |},
   next h).

(** [d[key] = value] for the dict at address [a]. *)
Definition dict_setitem (h : t) (a : nat) (key : string) (value : pyval) : t :=
  {| cell := fun b => if Nat.eqb b a then dict_set key value (cell h a)
                      else cell h b;
     next := next h |}.

Record frozendict_at : Type := { _items : nat; _keys : list string }.

(** A positional argument: the address of a dict, or something that is
    no [Mapping]. *)
Inductive arg : Type :=
| Ref (a : nat)
| Other (v : pyval).

Definition __init__ (h : t) (args : list arg) (kwargs : dict)
  : result (t * frozendict_at) :=
  match kwargs, args with
  | _ :: _, [] =>
      let (h', a) := alloc h (dict_of kwargs) in
      Ok (h', {| _items := a; _keys := sorted (dict_keys (cell h' a)) |})
  | _, [Ref a] =>
      Ok (h, {| _items := a; _keys := sorted (dict_keys (cell h a)) |})
  | _, _ => Raise (TypeError "")
  end.

(** The frozendict as the methods of the class see it in heap [h]. *)
Definition load (h : t) (f : frozendict_at) : frozendict.t :=
  {| frozendict._items := cell h (_items f); frozendict._keys := _keys f |}.

End heap.


(** ** One interpreter

    Integers and tuples hash as in CPython 3.8 and later on a 64-bit
    build.  The hashes of strings, byte strings, [None], classes and
    methods change from process to process there, and the [repr] of text
    has quoting rules of its own; one fixed choice stands for each. *)

Module cpython.

Definition u64 (z : Z) : Z := z mod 2 ^ 64.

Definition s64 (z : Z) : Z := if 2 ^ 63 <=? z then z - 2 ^ 64 else z.

Definition XXPRIME_1 : Z := 11400714785074694791.
Definition XXPRIME_2 : Z := 14029467366897019727.
Definition XXPRIME_5 : Z := 2870177450012600261.

Definition XXROTATE (x : Z) : Z :=
  u64 (Z.lor (Z.shiftl x 31) (Z.shiftr x 33)).

Definition tuplehash (lanes : list Z) : Z :=
  let acc :=
    fold_left (fun acc lane =>
                 u64 (XXROTATE (u64 (acc + u64 lane * XXPRIME_2)) * XXPRIME_1))
              lanes XXPRIME_5 in
  let acc :=
    u64 (acc + Z.lxor (Z.of_nat (length lanes)) (Z.lxor XXPRIME_5 3527539)) in
  if acc =? 2 ^ 64 - 1 then 1546275796 else s64 acc.

Definition long_hash (z : Z) : Z :=
  let h := Z.rem z (2 ^ 61 - 1) in
  if h =? -1 then -2 else h.

Definition text_hash (s : string) : Z :=
  fold_left (fun acc c => u64 (acc * 31 + Z.of_N (N_of_ascii c)))
            (list_ascii_of_string s) 7.

Definition interpreter : builtins := {|
  hash_int := long_hash;
  hash_str := text_hash;
  hash_bytes := fun b => long_hash (Z.of_nat (length b));
  hash_none := 0;
  hash_class := text_hash;
  hash_attr := fun owner name => text_hash (owner ++ "." ++ name);
  hash_tuple := tuplehash;
  repr := fun v =>
    match v with
    | PyInt z => pretty z
    | PyStr s => "'" ++ s ++ "'"
    | _ => "..."
    end
|}.

End cpython.

(** ** The values of the examples *)

Module examples.

(** A record type with the schema [typ], [alg]. *)
Definition Header : ImmutableMap.type := {|
  ImmutableMap.__name__ := "Header";
  ImmutableMap.__slots__ := ["typ"; "alg"];
  ImmutableMap.other_attributes := ["get"; "keys"; "items"; "values"]
|}.


Definition jwt_rs256 : dict := [("typ", PyStr "JWT"); ("alg", PyStr "RS256")].

(** [Header(typ="JWT", alg="RS256")] *)
Definition header : ImmutableMap.t :=
  {| ImmutableMap.__class__ := Header; ImmutableMap.slot_values := jwt_rs256 |}.


(** Two record types with the fields [x] and [y], declared in opposite
    orders. *)
Definition Point : ImmutableMap.type := {|
  ImmutableMap.__name__ := "Point";
  ImmutableMap.__slots__ := ["x"; "y"];
  ImmutableMap.other_attributes := []
|}.

Definition Vector : ImmutableMap.type := {|
  ImmutableMap.__name__ := "Vector";
  ImmutableMap.__slots__ := ["y"; "x"];
  ImmutableMap.other_attributes := []
|}.

Definition x1_y2 : dict := [("x", PyInt 1); ("y", PyInt 2)].

Definition enc (b : Byte.byte) : crypto.encodings :=
  {| crypto.asn1 := [b]; crypto.pem := [b]; crypto.text := [b] |}.

(** A wrapped certificate and a wrapped certificate request whose
    encodings differ. *)
Definition cert : ComparableX509.t :=
  {| ComparableX509.wrapped := crypto.X509 (enc Byte.x01) |}.

Definition req : ComparableX509.t :=
  {| ComparableX509.wrapped := crypto.X509Req (enc Byte.x02) |}.

Definition rsa_private : key :=
  RSAPrivateKey
    {| rsa.p := 61; rsa.q := 53; rsa.d := 413; rsa.dmp1 := 53; rsa.dmq1 := 49;
       rsa.iqmp := 38;
       rsa.public_numbers := {| rsa.n := 3233; rsa.e := 17 |} |}.

Definition ec_private : key :=
  EllipticCurvePrivateKey
    {| ec.private_value := 5;
       ec.public_numbers :=
         {| ec.curve_name := "secp256r1"; ec.x := 11; ec.y := 13 |} |}.

End examples.

(** ** More values for the examples *)

Module more_examples.

(** A schema that names the field [x] twice. *)
Definition Twice : ImmutableMap.type := {|
  ImmutableMap.__name__ := "Twice";
  ImmutableMap.__slots__ := ["x"; "x"];
  ImmutableMap.other_attributes := []
|}.

(** [frozendict(a=1, b=2)] and [frozendict({"b": 2, "a": 1})] *)
Definition ab : frozendict.t :=
  {| frozendict._items := [("a", PyInt 1); ("b", PyInt 2)];
     frozendict._keys := ["a"; "b"] |}.

Definition ba : frozendict.t :=
  {| frozendict._items := [("b", PyInt 2); ("a", PyInt 1)];
     frozendict._keys := ["a"; "b"] |}.

(** A heap with the dict [{"a": 1}] at address 0. *)
Definition one_dict : heap.t :=
  {| heap.cell := fun a => if Nat.eqb a 0 then [("a", PyInt 1)] else [];
     heap.next := 1 |}.

End more_examples.

(** * Properties *)

(** ** The reference interpreter on the tuples of the examples *)

Example cpython_tuple_hashes :
  cpython.tuplehash [cpython.long_hash 1; cpython.long_hash 2]
    = -3550055125485641917 /\
  cpython.tuplehash [cpython.long_hash 2; cpython.long_hash 1]
    = 6794810172467074373 /\
  cpython.tuplehash [] = 5740354900026072187.
Proof. vm_compute. auto. Qed.

Example sorted_by_code_point :
  sorted ["b"; "a"; "B"; "aa"] = ["B"; "a"; "aa"; "b"].
Proof. vm_compute. reflexivity. Qed.

(** ** Facts about dict *)

Section dict_facts.

Implicit Types (d kw : dict) (k key : string) (v : pyval).

Lemma str_in_elem_of (s : string) (l : list string) :
  str_in s l = true <-> s ∈ l.
Proof.
  unfold str_in. induction l as [|x l IH]; simpl.
  - split; [discriminate | by intros ?%elem_of_nil].
  - rewrite orb_true_iff, IH, elem_of_cons, String.eqb_eq. reflexivity.
Qed.


Lemma set_eqb_spec (l1 l2 : list string) :
  set_eqb l1 l2 = true <-> (forall s, s ∈ l1 <-> s ∈ l2).
Proof.
  unfold set_eqb. rewrite andb_true_iff, !forallb_forall.
  split.
  - intros [H1 H2] s. split; intros Hs.
    + apply str_in_elem_of, H1. by apply list_elem_of_In.
    + apply str_in_elem_of, H2. by apply list_elem_of_In.
  - intros H. split; intros s Hs%list_elem_of_In; apply str_in_elem_of, H, Hs.
Qed.

Lemma dict_get_Some_elem_of key v d :
  dict_get key d = Some v -> (key, v) ∈ d.
Proof.
  induction d as [|[k w] d IH]; simpl; [discriminate|].
  destruct (String.eqb_spec k key) as [->|Hne].
  - intros [= ->]. apply elem_of_cons; auto.
  - intros H. apply elem_of_cons; auto.
Qed.

Lemma dict_get_None key d :
  dict_get key d = None <-> key ∉ dict_keys d.
Proof.
  induction d as [|[k w] d IH]; simpl.
  - split; [intros _; apply not_elem_of_nil | done].
  - rewrite not_elem_of_cons. destruct (String.eqb_spec k key) as [->|Hne].
    + split; [discriminate | intros [? _]; done].
    + rewrite IH. split; [intros ?; split; congruence | intros [_ ?]; done].
Qed.

Lemma dict_get_is_Some key d :
  is_Some (dict_get key d) <-> key ∈ dict_keys d.
Proof.
  destruct (dict_get key d) as [v|] eqn:E.
  - split; [intros _ | eauto].
    destruct (decide (key ∈ dict_keys d)) as [|Hn]; [done|].
    apply dict_get_None in Hn. congruence.
  - split; [intros [? ?]; done|]. intros H. by apply dict_get_None in E.
Qed.

Lemma dict_get_NoDup key v d :
  NoDup (dict_keys d) -> (key, v) ∈ d -> dict_get key d = Some v.
Proof.
  induction d as [|[k w] d IH]; simpl.
  - by intros _ ?%elem_of_nil.
  - intros [Hk Hd]%NoDup_cons [[= -> ->]|Hin]%elem_of_cons.
    + by rewrite String.eqb_refl.
    + destruct (String.eqb_spec k key) as [->|Hne]; [|auto].
      destruct Hk. apply list_elem_of_fmap. by exists (key, v).
Qed.

Lemma dict_get_set key k v d :
  dict_get key (dict_set k v d)
  = if decide (key = k) then Some v else dict_get key d.
Proof.
  induction d as [|[k' w] d IH]; simpl.
  - destruct (String.eqb_spec k key), (decide (key = k)); congruence.
  - destruct (String.eqb_spec k' k) as [->|Hne]; simpl.
    + destruct (String.eqb_spec k key), (decide (key = k)); congruence.
    + destruct (String.eqb_spec k' key) as [->|Hne'].
      * destruct (decide (key = k)); congruence.
      * apply IH.
Qed.

Lemma dict_set_fresh k v d :
  k ∉ dict_keys d -> dict_set k v d = (d ++ [(k, v)])%list.
Proof.
  induction d as [|[k' w] d IH]; simpl; [done|].
  intros [Hne Hd]%not_elem_of_cons.
  destruct (String.eqb_spec k' k); [congruence|]. by rewrite IH.
Qed.


End dict_facts.

Section dict_update_facts.

Implicit Types (d kw : dict) (k key : string) (v : pyval).

Lemma dict_update_cons d k v pairs :
  dict_update d ((k, v) :: pairs) = dict_update (dict_set k v d) pairs.
Proof. reflexivity. Qed.

Lemma dict_update_fresh d pairs :
  NoDup (dict_keys d ++ dict_keys pairs) ->
  dict_update d pairs = (d ++ pairs)%list.
Proof.
  revert d. induction pairs as [|[k v] pairs IH]; intros d Hnd.
  - by rewrite app_nil_r.
  - rewrite dict_update_cons.
    assert (Hk : k ∉ dict_keys d).
    { apply NoDup_app in Hnd as (_ & Hdis & _). intros Hin.
      apply (Hdis _ Hin). simpl. apply elem_of_cons; auto. }
    rewrite dict_set_fresh by done. rewrite IH.
    + by rewrite <- app_assoc.
    + unfold dict_keys in *. rewrite fmap_app. simpl.
      rewrite <- app_assoc. exact Hnd.
Qed.

Lemma dict_of_NoDup d : NoDup (dict_keys d) -> dict_of d = d.
Proof. intros H. unfold dict_of. by rewrite dict_update_fresh. Qed.



End dict_update_facts.

Section dict_pop_facts.

Implicit Types (d kw : dict) (k key : string) (v : pyval).

Lemma dict_pop_Some key v d d' :
  dict_pop key d = Some (v, d') ->
  dict_get key d = Some v /\
  (key ∈ dict_keys d) /\
  (forall k, k <> key -> dict_get k d' = dict_get k d) /\
  (forall k, k ∈ dict_keys d' -> k ∈ dict_keys d) /\
  (NoDup (dict_keys d) -> (key ∉ dict_keys d') /\ NoDup (dict_keys d')).
Proof.
  revert d'. induction d as [|[k w] d IH]; simpl; [discriminate|].
  intros d'. destruct (String.eqb_spec k key) as [->|Hne].
  - intros [= -> ->]. split_and!.
    + done.
    + apply elem_of_cons; auto.
    + intros k Hk. destruct (String.eqb_spec key k); congruence.
    + intros k Hk. apply elem_of_cons; auto.
    + intros [? ?]%NoDup_cons. done.
  - destruct (dict_pop key d) as [[w' rest]|] eqn:E; [|discriminate].
    intros [= -> <-].
    destruct (IH rest eq_refl) as (Hget & Hin & Hother & Hsub & Hnd).
    split_and!.
    + done.
    + apply elem_of_cons; auto.
    + intros k' Hk'. simpl. destruct (String.eqb k k'); auto.
    + intros k'. simpl. rewrite !elem_of_cons. intros [?|?]; auto.
    + simpl. intros [Hk Hd]%NoDup_cons. split.
      * apply not_elem_of_cons. split; [congruence | by apply Hnd].
      * apply NoDup_cons. split; [|by apply Hnd].
        intros Hin'. apply Hk. by apply Hsub.
Qed.

Lemma dict_pop_is_Some key d :
  key ∈ dict_keys d -> exists v d', dict_pop key d = Some (v, d').
Proof.
  induction d as [|[k w] d IH]; simpl.
  - by intros ?%elem_of_nil.
  - intros Hin. destruct (String.eqb_spec k key) as [->|Hne]; [eauto|].
    apply elem_of_cons in Hin as [?|Hin]; [congruence|].
    destruct (IH Hin) as (v & d' & ->). eauto.
Qed.

End dict_pop_facts.

Section collect_facts.

Lemma collect_map_bindings (d : dict) (f : string -> result (string * pyval)) :
  (forall k v, (k, v) ∈ d -> f k = Ok (k, v)) ->
  collect (map f (dict_keys d)) = Ok d.
Proof.
  induction d as [|[k v] d IH]; intros Hf; [done|].
  simpl. rewrite (Hf k v) by (apply elem_of_cons; auto). simpl.
  rewrite IH; [done|]. intros k' v' Hin. apply Hf, elem_of_cons; auto.
Qed.

Lemma collect_map_ext {A B : Type} (f g : A -> result B) (l : list A) :
  (forall a, a ∈ l -> f a = g a) ->
  collect (map f l) = collect (map g l).
Proof.
  induction l as [|a l IH]; intros H; [done|].
  simpl. rewrite (H a) by (apply elem_of_cons; auto).
  rewrite IH; [done|]. intros b Hb. apply H, elem_of_cons; auto.
Qed.

End collect_facts.

(** ** What [ImmutableMap.__init__] establishes *)

Section ImmutableMap_facts.

Import ImmutableMap.

Lemma store_slots_inv slots kw stored out :
  store_slots slots kw stored = Ok out ->
  NoDup (dict_keys kw) ->
  (forall k, k ∈ dict_keys stored -> k ∉ dict_keys kw) ->
  NoDup slots /\
  (forall s, s ∈ slots -> s ∈ dict_keys kw) /\
  dict_keys out = (dict_keys stored ++ slots)%list /\
  (forall s, s ∈ slots -> dict_get s out = dict_get s kw) /\
  (forall k, k ∉ slots -> dict_get k out = dict_get k stored).
Proof.
  revert kw stored. induction slots as [|s rest IH]; intros kw stored; simpl.
  - intros [= ->] _ _. split_and!.
    + constructor.
    + by intros s ?%elem_of_nil.
    + by rewrite app_nil_r.
    + by intros s ?%elem_of_nil.
    + done.
  - destruct (dict_pop s kw) as [[v kw']|] eqn:Hpop; [|discriminate].
    intros Hrest Hnd Hdis.
    destruct (dict_pop_Some _ _ _ _ Hpop) as (Hget & Hin & Hother & Hsub & Hnd').
    destruct (Hnd' Hnd) as [Hs Hndkw'].
    assert (Hfresh : s ∉ dict_keys stored) by (intros H; by apply (Hdis _ H)).
    destruct (IH _ _ Hrest Hndkw') as (Hndrest & Hrestin & Hkeys & Hvals & Hkeep).
    { rewrite dict_set_fresh by done. unfold dict_keys. rewrite fmap_app.
      intros k [Hk|Hk]%elem_of_app.
      - intros Hk'. by apply (Hdis _ Hk), Hsub.
      - simpl in Hk. apply list_elem_of_singleton in Hk as ->. done. }
    assert (Hsrest : s ∉ rest) by (intros H; by apply Hs, Hrestin).
    split_and!.
    + by apply NoDup_cons.
    + intros s' [->|Hs']%elem_of_cons; [done | by apply Hsub, Hrestin].
    + rewrite Hkeys, dict_set_fresh by done. unfold dict_keys.
      rewrite fmap_app. simpl. by rewrite <- app_assoc.
    + intros s' [->|Hs']%elem_of_cons.
      * rewrite Hkeep by done. rewrite dict_get_set, decide_True by done.
        by rewrite Hget.
      * rewrite Hvals by done. apply Hother. congruence.
    + intros k [Hks Hkrest]%not_elem_of_cons.
      rewrite Hkeep by done. by rewrite dict_get_set, decide_False.
Qed.

Lemma store_slots_succeeds slots kw stored :
  NoDup slots ->
  (forall s, s ∈ slots -> s ∈ dict_keys kw) ->
  exists out, store_slots slots kw stored = Ok out.
Proof.
  revert kw stored. induction slots as [|s rest IH]; intros kw stored; simpl.
  - eauto.
  - intros [Hs Hnd]%NoDup_cons Hin.
    destruct (dict_pop_is_Some s kw) as (v & kw' & Hpop).
    { apply Hin, elem_of_cons; auto. }
    rewrite Hpop. apply IH; [done|].
    intros s' Hs'.
    destruct (dict_pop_Some _ _ _ _ Hpop) as (_ & _ & Hother & _ & _).
    apply dict_get_is_Some. rewrite Hother by congruence.
    apply dict_get_is_Some, Hin, elem_of_cons; auto.
Qed.

Lemma init_inv cls kwargs r :
  __init__ cls kwargs = Ok r ->
  NoDup (dict_keys kwargs) ->
  __class__ r = cls /\
  NoDup (__slots__ cls) /\
  dict_keys (slot_values r) = __slots__ cls /\
  (forall s, s ∈ __slots__ cls -> dict_get s (slot_values r) = dict_get s kwargs) /\
  (forall s, s ∈ dict_keys kwargs <-> s ∈ __slots__ cls).
Proof.
  unfold __init__.
  destruct (set_eqb (dict_keys kwargs) (__slots__ cls)) eqn:Hset; [|discriminate].
  simpl. destruct (store_slots (__slots__ cls) kwargs []) as [out|] eqn:Hstore;
    [|discriminate].
  simpl. intros [= <-] Hnd. simpl.
  destruct (store_slots_inv _ _ _ _ Hstore Hnd) as (H1 & H2 & H3 & H4 & H5).
  { by intros k ?%elem_of_nil. }
  split_and!; try done. by apply set_eqb_spec.
Qed.

Lemma init_succeeds cls kwargs :
  NoDup (__slots__ cls) ->
  (forall s, s ∈ dict_keys kwargs <-> s ∈ __slots__ cls) ->
  exists r, __init__ cls kwargs = Ok r.
Proof.
  intros Hnd Hset. unfold __init__.
  apply set_eqb_spec in Hset as Hb. rewrite Hb. simpl.
  destruct (store_slots_succeeds (__slots__ cls) kwargs [] Hnd) as [out ->].
  { intros s. apply Hset. }
  simpl. eauto.
Qed.

(** What construction establishes. *)
Lemma constructed_inv r :
  constructed r ->
  NoDup (__slots__ (__class__ r)) /\
  dict_keys (slot_values r) = __slots__ (__class__ r).
Proof.
  intros (kwargs & Hnd & Hinit).
  destruct (init_inv _ _ _ Hinit Hnd) as (_ & H1 & H2 & _). done.
Qed.

Lemma getattr_slot r name :
  constructed r ->
  name ∈ __slots__ (__class__ r) ->
  exists value,
    dict_get name (slot_values r) = Some value /\
    getattr r name = Ok value /\ __getitem__ r name = Ok value.
Proof.
  intros [Hnd Hkeys]%constructed_inv Hin.
  assert (His : is_Some (dict_get name (slot_values r))).
  { apply dict_get_is_Some. by rewrite Hkeys. }
  destruct His as [value Hv]. exists value.
  unfold __getitem__, getattr.
  apply str_in_elem_of in Hin. rewrite Hin, Hv. done.
Qed.

Lemma items_constructed r :
  constructed r -> items r = Ok (slot_values r).
Proof.
  intros Hc. destruct (constructed_inv _ Hc) as [Hnd Hkeys].
  unfold items, __iter__. rewrite <- Hkeys.
  apply collect_map_bindings. intros k v Hin.
  destruct (getattr_slot r k Hc) as (value & Hv & _ & ->).
  { rewrite <- Hkeys. apply list_elem_of_fmap. by exists (k, v). }
  rewrite (dict_get_NoDup k v) in Hv; [|by rewrite Hkeys|done].
  by injection Hv as ->.
Qed.

End ImmutableMap_facts.

Section dict_eqb_facts.

Lemma py_eqb_refl v : py_eqb v v = true.
Proof. unfold py_eqb. by apply bool_decide_eq_true. Qed.

Lemma py_eqb_eq v w : py_eqb v w = true <-> v = w.
Proof. unfold py_eqb. apply bool_decide_eq_true. Qed.

Lemma dict_eqb_true (d1 d2 : dict) :
  NoDup (dict_keys d1) -> NoDup (dict_keys d2) ->
  dict_eqb d1 d2 = true <->
  (forall k, k ∈ dict_keys d1 <-> k ∈ dict_keys d2) /\
  (forall k v, dict_get k d1 = Some v ->
               exists w, dict_get k d2 = Some w /\ py_eqb v w = true).
Proof.
  intros Hnd1 Hnd2. unfold dict_eqb.
  rewrite andb_true_iff, Nat.eqb_eq, forallb_forall. split.
  - intros [Hlen Hall].
    assert (Hvals : forall k v, dict_get k d1 = Some v ->
              exists w, dict_get k d2 = Some w /\ py_eqb v w = true).
    { intros k v Hget%dict_get_Some_elem_of%list_elem_of_In.
      specialize (Hall _ Hget). simpl in Hall.
      destruct (dict_get k d2) as [w|]; [eauto | discriminate]. }
    assert (Hsub : forall k, k ∈ dict_keys d1 -> k ∈ dict_keys d2).
    { intros k [v Hv]%dict_get_is_Some.
      destruct (Hvals _ _ Hv) as (w & Hw & _).
      apply dict_get_is_Some. eauto. }
    split; [|done].
    assert (Hperm : dict_keys d1 ≡ₚ dict_keys d2).
    { apply submseteq_length_Permutation.
      - by apply NoDup_submseteq.
      - unfold dict_keys. rewrite !length_fmap. lia. }
    intros k. by rewrite Hperm.
  - intros [Hkeys Hvals]. split.
    + assert (Hperm : dict_keys d1 ≡ₚ dict_keys d2) by by apply NoDup_Permutation.
      apply Permutation_length in Hperm. unfold dict_keys in Hperm.
      by rewrite !length_fmap in Hperm.
    + intros [k v] Hin%list_elem_of_In. simpl.
      destruct (Hvals k v) as (w & -> & Hw); [|done].
      by apply dict_get_NoDup.
Qed.

Lemma dict_eqb_refl (d : dict) : NoDup (dict_keys d) -> dict_eqb d d = true.
Proof.
  intros Hnd. apply dict_eqb_true; [done..|]. split; [done|].
  intros k v Hv. exists v. split; [done | apply py_eqb_refl].
Qed.

End dict_eqb_facts.

(** ** ImmutableMap: equality and update *)

Section record_theorems.

Import ImmutableMap.





End record_theorems.

(** The header of the examples is what its constructor returns. *)
Lemma header_constructed : ImmutableMap.constructed examples.header.
Proof.
  exists examples.jwt_rs256. split; [|reflexivity].
  apply (bool_decide_unpack _). vm_compute. exact I.
Qed.





(** Construction needs exactly the fields of the schema: with them it
    returns a record that holds the given values; a missing or an
    unexpected name makes it raise [TypeError]. *)
Theorem record_init_requires_schema (cls : ImmutableMap.type) (kwargs : dict) :
  NoDup (dict_keys kwargs) ->
  NoDup (ImmutableMap.__slots__ cls) ->
  ((forall s, s ∈ dict_keys kwargs <-> s ∈ ImmutableMap.__slots__ cls) ->
   exists r,
     ImmutableMap.__init__ cls kwargs = Ok r /\
     ImmutableMap.__class__ r = cls /\
     forall s, s ∈ ImmutableMap.__slots__ cls ->
               dict_get s (ImmutableMap.slot_values r) = dict_get s kwargs) /\
  (forall s,
      (s ∈ dict_keys kwargs /\ s ∉ ImmutableMap.__slots__ cls) \/
      (s ∈ ImmutableMap.__slots__ cls /\ s ∉ dict_keys kwargs) ->
      exists msg, ImmutableMap.__init__ cls kwargs = Raise (TypeError msg)).
Proof.
  intros Hndk Hnds. split.
  - intros Hset. destruct (init_succeeds cls kwargs Hnds Hset) as [r Hr].
    destruct (init_inv _ _ _ Hr Hndk) as (Hcls & _ & _ & Hvals & _).
    exists r. done.
  - intros s Hs. unfold ImmutableMap.__init__.
    destruct (set_eqb (dict_keys kwargs) (ImmutableMap.__slots__ cls)) eqn:E.
    + pose proof (proj1 (set_eqb_spec _ _) E s). tauto.
    + simpl. eauto.
Qed.

(** [record_init_requires_schema] at [Header(typ="JWT")], where [alg] is
    missing. *)
Lemma record_init_requires_schema_witness :
  exists msg,
    ImmutableMap.__init__ examples.Header [("typ", PyStr "JWT")]
    = Raise (TypeError msg).
Proof.
  apply (record_init_requires_schema examples.Header [("typ", PyStr "JWT")])
    with (s := "alg").
  - apply (bool_decide_unpack _). vm_compute. exact I.
  - apply (bool_decide_unpack _). vm_compute. exact I.
  - right. split; apply (bool_decide_unpack _); vm_compute; exact I.
Defined.

(** For a field of the schema, item lookup and attribute access return
    the stored value. *)
Theorem record_item_is_attribute (r : ImmutableMap.t) (name : string) :
  ImmutableMap.constructed r ->
  name ∈ ImmutableMap.__slots__ (ImmutableMap.__class__ r) ->
  exists value,
    dict_get name (ImmutableMap.slot_values r) = Some value /\
    ImmutableMap.getattr r name = Ok value /\
    ImmutableMap.__getitem__ r name = Ok value.
Proof. intros Hc Hin. exact (getattr_slot r name Hc Hin). Qed.

(** [record_item_is_attribute] at the field [alg] of the header. *)
Lemma record_item_is_attribute_witness :
  exists value,
    dict_get "alg" examples.jwt_rs256 = Some value /\
    ImmutableMap.getattr examples.header "alg" = Ok value /\
    ImmutableMap.__getitem__ examples.header "alg" = Ok value.
Proof.
  apply (record_item_is_attribute examples.header "alg").
  - exact header_constructed.
  - apply (bool_decide_unpack _). vm_compute. exact I.
Defined.

(** ** frozendict: sorted keys *)

Section frozendict_facts.

Import frozendict.

Lemma sorted_Permutation keys : sorted keys ≡ₚ keys.
Proof. apply merge_sort_Permutation. Qed.

Lemma sorted_Sorted keys : Sorted String.le (sorted keys).
Proof. apply (Sorted_merge_sort String.le). Qed.

Lemma sorted_unique keys1 keys2 :
  keys1 ≡ₚ keys2 -> sorted keys1 = sorted keys2.
Proof.
  intros Hperm. apply (Sorted_unique String.le); try apply sorted_Sorted.
  by rewrite !sorted_Permutation.
Qed.

Lemma dict_get_Permutation key (d1 d2 : dict) :
  NoDup (dict_keys d1) -> d1 ≡ₚ d2 -> dict_get key d1 = dict_get key d2.
Proof.
  intros Hnd Hperm.
  assert (Hk : dict_keys d1 ≡ₚ dict_keys d2) by (unfold dict_keys; by rewrite Hperm).
  destruct (dict_get key d1) as [v|] eqn:E.
  - symmetry. apply dict_get_NoDup; [by rewrite <- Hk|].
    rewrite <- Hperm. by apply dict_get_Some_elem_of.
  - symmetry. apply dict_get_None. rewrite <- Hk. by apply dict_get_None.
Qed.

Lemma frozendict_constructed_inv f :
  constructed f ->
  NoDup (dict_keys (_items f)) /\ _keys f = sorted (dict_keys (_items f)).
Proof.
  intros (args & kwargs & Hnd & Hargs & Hinit). unfold __init__ in Hinit.
  destruct kwargs as [|kv kwargs], args as [|[mapping|v] [|a args]];
    simpl in Hinit; try discriminate; injection Hinit as <-; simpl.
  - split; [|done]. apply Hargs, elem_of_cons; auto.
  - rewrite dict_of_NoDup by done. done.
  - split; [|done]. apply Hargs, elem_of_cons; auto.
Qed.

Lemma dict_ext (d1 d2 : dict) :
  NoDup (dict_keys d1) ->
  dict_keys d1 = dict_keys d2 ->
  (forall k, dict_get k d1 = dict_get k d2) ->
  d1 = d2.
Proof.
  revert d2. induction d1 as [|[k v] d1 IH]; intros [|[k' v'] d2]; simpl;
    try done.
  intros [Hk Hnd]%NoDup_cons [= <- Hkeys] Hget.
  pose proof (Hget k) as Hkk. simpl in Hkk. rewrite String.eqb_refl in Hkk.
  injection Hkk as <-. f_equal. apply IH; [done..|].
  intros key. specialize (Hget key). simpl in Hget.
  destruct (String.eqb_spec k key) as [Heq|Hne]; [|done].
  subst key. apply dict_get_None in Hk as Hk1. rewrite Hk1. symmetry.
  apply dict_get_None. by rewrite <- Hkeys.
Qed.

Lemma sorted_items_constructed f :
  constructed f ->
  exists bindings,
    _sorted_items f = Ok bindings /\
    dict_keys bindings = _keys f /\
    NoDup (dict_keys bindings) /\
    (forall k, dict_get k bindings = dict_get k (_items f)).
Proof.
  intros [Hnd Hkeys]%frozendict_constructed_inv.
  assert (Hgen : forall keys, NoDup keys ->
            (forall k, k ∈ keys -> k ∈ dict_keys (_items f)) ->
            exists bindings,
              collect (map (fun key => value ← __getitem__ f key; Ok (key, value))
                           keys) = Ok bindings /\
              dict_keys bindings = keys /\
              (forall k, k ∈ keys -> dict_get k bindings = dict_get k (_items f))).
  { unfold __getitem__. induction keys as [|k keys IH]; intros Hndk Hsub.
    - exists []. split_and!; try done. by intros k ?%elem_of_nil.
    - apply NoDup_cons in Hndk as [Hk Hndk].
      destruct IH as (bindings & Hb & Hbk & Hbv); [done|..].
      { intros k' Hk'. apply Hsub, elem_of_cons; auto. }
      destruct (proj2 (dict_get_is_Some k (_items f))) as [v Hv].
      { apply Hsub, elem_of_cons; auto. }
      exists ((k, v) :: bindings). simpl.
      rewrite Hv. simpl. rewrite Hb. simpl. split_and!; [done | by rewrite Hbk |].
      intros k' Hk'. destruct (String.eqb_spec k k') as [<-|Hne]; [done|].
      apply elem_of_cons in Hk' as [?|Hk']; [congruence | by apply Hbv]. }
  destruct (Hgen (_keys f)) as (bindings & Hb & Hbk & Hbv).
  { rewrite Hkeys, sorted_Permutation. done. }
  { intros k. rewrite Hkeys, sorted_Permutation. done. }
  exists bindings. split_and!; try done.
  - rewrite Hbk, Hkeys, sorted_Permutation. done.
  - intros k. destruct (decide (k ∈ _keys f)) as [Hin|Hout]; [by apply Hbv|].
    transitivity (@None pyval).
    + apply dict_get_None. by rewrite Hbk.
    + symmetry. apply dict_get_None. intros Hin. apply Hout.
      rewrite Hkeys, sorted_Permutation. done.
Qed.

Lemma items_sorted_items f : items f = _sorted_items f.
Proof. reflexivity. Qed.

Lemma collect_Ok {A : Type} (rs : list (result A)) :
  (forall r, r ∈ rs -> exists a, r = Ok a) -> exists l, collect rs = Ok l.
Proof.
  induction rs as [|r rs IH]; intros Hall; [by exists []|].
  destruct (Hall r) as [a ->]; [apply elem_of_cons; auto|].
  destruct IH as [l Hl]; [intros r' Hr'; apply Hall, elem_of_cons; auto|].
  exists (a :: l). simpl. by rewrite Hl.
Qed.

Lemma hash_of_tuple_Ok B (items : list (result Z)) :
  (forall r, r ∈ items -> exists h, r = Ok h) ->
  exists h, hash_of_tuple B items = Ok h.
Proof.
  intros [hs Hhs]%collect_Ok. unfold hash_of_tuple. rewrite Hhs. simpl. eauto.
Qed.

(** C8: a frozendict built from named bindings and one built from a
    mapping with the same bindings, in any order, are equal, have the
    same hash outcome (a number when every value has a hash), iterate
    over the same keys in ascending order, and have the same [repr],
    which lists the bindings in that order. *)
Theorem frozendict_sources_agree (B : builtins) (kwargs mapping : dict) :
  kwargs <> [] ->
  NoDup (dict_keys kwargs) ->
  kwargs ≡ₚ mapping ->
  exists f1 f2,
    __init__ [] kwargs = Ok f1 /\
    __init__ [Instance mapping] [] = Ok f2 /\
    Mapping.__eq__ (Mapping.Frozen f1) (Instance (Mapping.Frozen f2))
      = Ok (CmpBool true) /\
    __hash__ B f1 = __hash__ B f2 /\
    ((forall k v, (k, v) ∈ kwargs -> exists h, py_hash B v = Ok h) ->
     exists h, __hash__ B f1 = Ok h) /\
    __iter__ f1 = __iter__ f2 /\
    Sorted String.le (__iter__ f1) /\
    __iter__ f1 ≡ₚ dict_keys kwargs /\
    __repr__ B f1 = __repr__ B f2 /\
    exists bindings,
      _sorted_items f1 = Ok bindings /\
      dict_keys bindings = __iter__ f1 /\
      (forall k, dict_get k bindings = dict_get k kwargs) /\
      __repr__ B f1
      = Ok ("frozendict("
            ++ join ", " (map (fun kv => fst kv ++ "=" ++ repr B (snd kv))
                              bindings)
            ++ ")").
Proof.
  intros Hne Hnd Hperm.
  assert (Hk : dict_keys kwargs ≡ₚ dict_keys mapping)
    by (unfold dict_keys; by rewrite Hperm).
  set (f1 := {| _items := kwargs; _keys := sorted (dict_keys kwargs) |}).
  set (f2 := {| _items := mapping; _keys := sorted (dict_keys mapping) |}).
  assert (Hinit : __init__ [] kwargs = Ok f1).
  { unfold __init__, f1. destruct kwargs; [done|].
    simpl. by rewrite dict_of_NoDup. }
  assert (Hc : constructed f1).
  { exists [], kwargs. split_and!; [done | by intros m ?%elem_of_nil | done]. }
  assert (Hkeys : _keys f1 = _keys f2) by (by apply sorted_unique).
  assert (Hsi : _sorted_items f1 = _sorted_items f2).
  { unfold _sorted_items, __getitem__. rewrite <- Hkeys. simpl.
    apply collect_map_ext. intros k _.
    by rewrite (dict_get_Permutation k kwargs mapping). }
  destruct (sorted_items_constructed f1 Hc) as (bindings & Hb & Hbk & Hndb & Hbv).
  exists f1, f2. split_and!.
  - exact Hinit.
  - reflexivity.
  - unfold Mapping.__eq__, Mapping.items.
    rewrite (items_sorted_items f2), (items_sorted_items f1).
    rewrite <- Hsi, Hb.
    change (Ok (CmpBool (dict_eqb (dict_of bindings) (dict_of bindings)))
            = Ok (CmpBool true)).
    rewrite dict_of_NoDup by done. by rewrite dict_eqb_refl.
  - unfold __hash__. by rewrite Hsi.
  - intros Hhash. unfold __hash__. rewrite Hb.
    apply hash_of_tuple_Ok. intros r ([k v] & -> & Hin)%list_elem_of_fmap.
    destruct (Hhash k v) as [h Hh].
    { apply dict_get_Some_elem_of.
      transitivity (dict_get k bindings); [symmetry; apply Hbv|].
      by apply dict_get_NoDup. }
    simpl. rewrite Hh. eexists. reflexivity.
  - exact Hkeys.
  - apply sorted_Sorted.
  - apply sorted_Permutation.
  - unfold __repr__. by rewrite Hsi.
  - exists bindings. split_and!; [done | done | exact Hbv |].
    unfold __repr__. by rewrite Hb.
Qed.


End frozendict_facts.

(** [frozendict_sources_agree] at [frozendict(a=1, b=2)] and
    [frozendict({"b": 2, "a": 1})], in the reference interpreter. *)
Lemma frozendict_a1_b2_witness :
  exists f1 f2,
    frozendict.__init__ [] [("a", PyInt 1); ("b", PyInt 2)] = Ok f1 /\
    frozendict.__init__ [Instance [("b", PyInt 2); ("a", PyInt 1)]] [] = Ok f2 /\
    Mapping.__eq__ (Mapping.Frozen f1) (Instance (Mapping.Frozen f2))
      = Ok (CmpBool true) /\
    frozendict.__hash__ cpython.interpreter f1
      = frozendict.__hash__ cpython.interpreter f2 /\
    frozendict.__iter__ f1 = ["a"; "b"] /\
    frozendict.__iter__ f2 = ["a"; "b"] /\
    frozendict.__repr__ cpython.interpreter f1 = Ok "frozendict(a=1, b=2)" /\
    frozendict.__repr__ cpython.interpreter f2 = Ok "frozendict(a=1, b=2)".
Proof.
  destruct (frozendict_sources_agree cpython.interpreter
              [("a", PyInt 1); ("b", PyInt 2)]
              [("b", PyInt 2); ("a", PyInt 1)])
    as (f1 & f2 & H1 & H2 & Heq & Hhash & _ & Hiter & _ & _ & Hrepr & _).
  - discriminate.
  - apply (bool_decide_unpack _). vm_compute. exact I.
  - apply perm_swap.
  - exists f1, f2.
    assert (E1 : f1 = {| frozendict._items := [("a", PyInt 1); ("b", PyInt 2)];
                         frozendict._keys := ["a"; "b"] |}).
    { vm_compute in H1. congruence. }
    split_and!; try done.
    + rewrite E1. reflexivity.
    + rewrite <- Hiter, E1. reflexivity.
    + rewrite E1. vm_compute. reflexivity.
    + rewrite <- Hrepr, E1. vm_compute. reflexivity.
Defined.


(** ** ComparableX509 *)

(** C3, as the code has it: [__eq__] looks at the class of the wrapper and
    at the ASN.1 dumps, never at which of the two variants is wrapped.
    Against another wrapper it answers with a boolean, [True] exactly when
    the two dumps are the same bytes; only against an object that is not
    a wrapper is the answer [NotImplemented].  The result type has no
    exception. *)
Theorem x509_eq_compares_dumps (self : ComparableX509.t) :
  (forall o,
      ComparableX509.__eq__ self (Instance o) = CmpBool true
      <-> ComparableX509._dump self crypto.FILETYPE_ASN1
          = ComparableX509._dump o crypto.FILETYPE_ASN1) /\
  (forall o,
      ComparableX509.__eq__ self (Instance o) = CmpBool false
      <-> ComparableX509._dump self crypto.FILETYPE_ASN1
          <> ComparableX509._dump o crypto.FILETYPE_ASN1) /\
  (forall other,
      ComparableX509.__eq__ self other = NotImplemented
      <-> exists v, other = Foreign v).
Proof.
  repeat split.
  - unfold ComparableX509.__eq__. intros [= H]. by apply bool_decide_eq_true in H.
  - intros H. unfold ComparableX509.__eq__. f_equal. by apply bool_decide_eq_true.
  - unfold ComparableX509.__eq__. intros [= H]. by apply bool_decide_eq_false in H.
  - intros H. unfold ComparableX509.__eq__. f_equal. by apply bool_decide_eq_false.
  - destruct other as [o | v]; simpl; [discriminate | eauto].
  - intros [v ->]. reflexivity.
Qed.

(** C3 as stated fails: a wrapped certificate compared with a wrapped
    certificate request is not "not comparable"; the dumps of the two
    variants are compared and the answer is [False]. *)
Lemma x509_cross_variant_is_compared :
  ComparableX509.wrapped examples.cert = crypto.X509 (examples.enc Byte.x01) /\
  ComparableX509.wrapped examples.req = crypto.X509Req (examples.enc Byte.x02) /\
  ComparableX509.__eq__ examples.cert (Instance examples.req) = CmpBool false /\
  ComparableX509.__eq__ examples.cert (Instance examples.req) <> NotImplemented.
Proof. repeat split. discriminate. Qed.

(** Equal wrappers have the same hash outcome. *)
Theorem x509_hash_respects_eq (B : builtins) (a b : ComparableX509.t) :
  ComparableX509.__eq__ a (Instance b) = CmpBool true ->
  ComparableX509.__hash__ B a = ComparableX509.__hash__ B b.
Proof.
  unfold ComparableX509.__eq__, ComparableX509.__hash__.
  intros [= Heq]. apply bool_decide_eq_true in Heq. by rewrite Heq.
Qed.

(** [x509_hash_respects_eq] at two wrappers of the same certificate. *)
Lemma x509_hash_respects_eq_witness :
  ComparableX509.__hash__ cpython.interpreter examples.cert
  = ComparableX509.__hash__ cpython.interpreter
      {| ComparableX509.wrapped := crypto.X509 (examples.enc Byte.x01) |}.
Proof.
  apply x509_hash_respects_eq. vm_compute. reflexivity.
Defined.

(** ** ComparableKey *)


(** Wrappers around keys of two classes, or of two wrapper classes
    neither of which derives from the other, are not comparable; so an
    RSA wrapper against an elliptic-curve wrapper is [NotImplemented]. *)
Theorem key_eq_cross_family_not_comparable (a b : ComparableKey.t) :
  type_of_key (ComparableKey._wrapped a)
    <> type_of_key (ComparableKey._wrapped b) ->
  ComparableKey.__eq__ a (Instance b) = NotImplemented /\
  ComparableKey.__eq__ b (Instance a) = NotImplemented.
Proof.
  intros Hne. unfold ComparableKey.__eq__.
  rewrite (bool_decide_eq_false_2 _ Hne).
  rewrite bool_decide_eq_false_2 by congruence.
  by rewrite !orb_true_r.
Qed.

(** [key_eq_cross_family_not_comparable] at an RSA wrapper and an
    elliptic-curve wrapper. *)
Lemma key_eq_cross_family_witness :
  ComparableKey.__eq__
    (ComparableKey.__init__ ComparableKey.ComparableRSAKey examples.rsa_private)
    (Instance (ComparableKey.__init__ ComparableKey.ComparableECKey
                 examples.ec_private))
  = NotImplemented /\
  ComparableKey.__eq__
    (ComparableKey.__init__ ComparableKey.ComparableECKey examples.ec_private)
    (Instance (ComparableKey.__init__ ComparableKey.ComparableRSAKey
                 examples.rsa_private))
  = NotImplemented.
Proof.
  apply key_eq_cross_family_not_comparable. simpl. discriminate.
Defined.

(** Equal key wrappers of one wrapper class have the same hash outcome. *)
Theorem key_hash_respects_eq (B : builtins) (a b : ComparableKey.t) :
  ComparableKey.__class__ a = ComparableKey.__class__ b ->
  ComparableKey.__eq__ a (Instance b) = CmpBool true ->
  ComparableKey.__hash__ B a = ComparableKey.__hash__ B b.
Proof.
  destruct a as [ca ka], b as [cb kb]. simpl. intros <-.
  unfold ComparableKey.__eq__. simpl.
  destruct (negb _ || negb _); [discriminate|].
  destruct ka, kb; simpl; try discriminate;
    intros [= Heq]; apply bool_decide_eq_true in Heq;
    injection Heq as <-; reflexivity.
Qed.

(** [key_hash_respects_eq] at two wrappers of the same RSA key. *)
Lemma key_hash_respects_eq_witness :
  ComparableKey.__hash__ cpython.interpreter
    (ComparableKey.__init__ ComparableKey.ComparableRSAKey examples.rsa_private)
  = ComparableKey.__hash__ cpython.interpreter
    (ComparableKey.__init__ ComparableKey.ComparableRSAKey examples.rsa_private).
Proof.
  apply key_hash_respects_eq.
  - reflexivity.
  - vm_compute. reflexivity.
Defined.

(** The hash inputs of the RSA and elliptic-curve wrappers, and the base
    class, whose [__hash__] is [NotImplemented]: hashing its instances is
    a [TypeError]. *)
Theorem key_hash_inputs (B : builtins) :
  (forall priv,
      ComparableKey.__hash__ B
        (ComparableKey.__init__ ComparableKey.ComparableRSAKey
           (RSAPrivateKey priv))
      = Ok (hash_tuple B
              [hash_class B "ComparableRSAKey";
               hash_int B (rsa.p priv); hash_int B (rsa.q priv);
               hash_int B (rsa.dmp1 priv); hash_int B (rsa.dmq1 priv);
               hash_int B (rsa.iqmp priv);
               hash_int B (rsa.n (rsa.public_numbers priv));
               hash_int B (rsa.e (rsa.public_numbers priv))])) /\
  (forall pub,
      ComparableKey.__hash__ B
        (ComparableKey.__init__ ComparableKey.ComparableRSAKey
           (RSAPublicKey pub))
      = Ok (hash_tuple B
              [hash_class B "ComparableRSAKey";
               hash_int B (rsa.n pub); hash_int B (rsa.e pub)])) /\
  (forall priv,
      ComparableKey.__hash__ B
        (ComparableKey.__init__ ComparableKey.ComparableECKey
           (EllipticCurvePrivateKey priv))
      = Ok (hash_tuple B
              [hash_class B "ComparableECKey";
               hash_str B (ec.curve_name (ec.public_numbers priv));
               hash_int B (ec.x (ec.public_numbers priv));
               hash_int B (ec.y (ec.public_numbers priv));
               hash_int B (ec.private_value priv)])) /\
  (forall pub,
      ComparableKey.__hash__ B
        (ComparableKey.__init__ ComparableKey.ComparableECKey
           (EllipticCurvePublicKey pub))
      = Ok (hash_tuple B
              [hash_class B "ComparableECKey";
               hash_str B (ec.curve_name pub);
               hash_int B (ec.x pub); hash_int B (ec.y pub)])) /\
  (forall k,
      exists msg,
        ComparableKey.__hash__ B
          (ComparableKey.__init__ ComparableKey.ComparableKey k)
        = Raise (TypeError msg)).
Proof. split_and!; try reflexivity. intros k. eexists. reflexivity. Qed.

(** The base method and the elliptic-curve override wrap the derived
    public key in the class of the receiver. *)
Lemma public_key_wraps_derived_key :
  (forall numbers,
      ComparableKey.public_key
        (ComparableKey.__init__ ComparableKey.ComparableRSAKey
           (RSAPrivateKey numbers))
      = Ok (ComparableKey.Wrapper
              (ComparableKey.__init__ ComparableKey.ComparableRSAKey
                 (RSAPublicKey (rsa.public_numbers numbers))))) /\
  (forall numbers,
      ComparableKey.public_key
        (ComparableKey.__init__ ComparableKey.ComparableECKey
           (EllipticCurvePrivateKey numbers))
      = Ok (ComparableKey.Wrapper
              (ComparableKey.__init__ ComparableKey.ComparableECKey
                 (EllipticCurvePublicKey (ec.public_numbers numbers))))).
Proof. split; reflexivity. Qed.


(** ** frozendict: construction *)

(** C4 on the code: one positional mapping is accepted whatever named
    bindings come with it, and the named bindings are dropped; named
    bindings alone are accepted; no argument at all is a [TypeError]. *)
Theorem frozendict_init_cases :
  (forall mapping kwargs,
      frozendict.__init__ [Instance mapping] kwargs
      = Ok {| frozendict._items := mapping;
              frozendict._keys := sorted (dict_keys mapping) |}) /\
  (forall binding kwargs,
      frozendict.__init__ [] (binding :: kwargs)
      = Ok {| frozendict._items := dict_of (binding :: kwargs);
              frozendict._keys :=
                sorted (dict_keys (dict_of (binding :: kwargs))) |}) /\
  frozendict.__init__ [] [] = Raise (TypeError "") /\
  frozendict.__init__ [Instance [("a", PyInt 1)]] [("b", PyInt 2)]
  = Ok {| frozendict._items := [("a", PyInt 1)]; frozendict._keys := ["a"] |}.
Proof.
  repeat split.
  intros mapping [|kv kwargs]; reflexivity.
Qed.

(** ** Assignment *)



(** ** ImmutableMap: lookup *)

(** C10 at the name [update]: it is no field of [Header], and
    [header["update"]] does not raise [KeyError]; [getattr] finds the
    method of the class and [__getitem__] returns it. *)
Theorem getitem_finds_method :
  ImmutableMap.__init__ examples.Header examples.jwt_rs256
    = Ok examples.header /\
  str_in "update" (ImmutableMap.__slots__ examples.Header) = false /\
  ImmutableMap.__getitem__ examples.header "update"
    = Ok (PyClassAttr "ImmutableMap" "update") /\
  ImmutableMap.__getitem__ examples.header "kid" = Raise (KeyError "kid").
Proof. repeat split. Qed.

(** ** ImmutableMap: equality and hash *)

(** C1 at two records: [Point(x=1, y=2)] and [Vector(x=1, y=2)], whose
    types declare the same fields in opposite orders, are equal by the
    [__eq__] of [Mapping], and [__hash__] hashes the tuple [(1, 2)] for
    the first and [(2, 1)] for the second. *)
Theorem equal_records_hash_apart :
  exists a b,
    ImmutableMap.__init__ examples.Point examples.x1_y2 = Ok a /\
    ImmutableMap.__init__ examples.Vector examples.x1_y2 = Ok b /\
    Mapping.__eq__ (Mapping.Record_ a) (Instance (Mapping.Record_ b))
      = Ok (CmpBool true) /\
    (forall B,
        ImmutableMap.__hash__ B a
          = Ok (hash_tuple B [hash_int B 1; hash_int B 2]) /\
        ImmutableMap.__hash__ B b
          = Ok (hash_tuple B [hash_int B 2; hash_int B 1])) /\
    ImmutableMap.__hash__ cpython.interpreter a = Ok (-3550055125485641917) /\
    ImmutableMap.__hash__ cpython.interpreter b = Ok 6794810172467074373.
Proof.
  eexists. eexists.
  split; [reflexivity|]. split; [reflexivity|].
  split; [vm_compute; reflexivity|].
  split; [intros B; split; reflexivity|].
  split; vm_compute; reflexivity.
Qed.


(** ** More facts about dict *)

Section more_dict_facts.

Implicit Types (d : dict) (k key : string) (v : pyval).

Lemma dict_keys_set_elem_of key k v d :
  key ∈ dict_keys (dict_set k v d) <-> key = k \/ key ∈ dict_keys d.
Proof.
  rewrite <- !dict_get_is_Some, dict_get_set.
  destruct (decide (key = k)) as [->|Hne].
  - split; [auto | intros _; eauto].
  - split; [auto | intros [?|?]; done].
Qed.

Lemma dict_keys_update_elem_of key d pairs :
  key ∈ dict_keys (dict_update d pairs)
  <-> key ∈ dict_keys d \/ key ∈ dict_keys pairs.
Proof.
  revert d. induction pairs as [|[k v] pairs IH]; intros d.
  - simpl. split; [auto | intros [?|?%elem_of_nil]; done].
  - rewrite dict_update_cons, IH, dict_keys_set_elem_of. simpl.
    rewrite elem_of_cons. tauto.
Qed.



Lemma dict_eqb_lookup d1 d2 :
  NoDup (dict_keys d1) -> NoDup (dict_keys d2) ->
  dict_eqb d1 d2 = true <-> (forall k, dict_get k d1 = dict_get k d2).
Proof.
  intros Hnd1 Hnd2. rewrite dict_eqb_true by done. split.
  - intros [Hkeys Hvals] k. destruct (dict_get k d1) as [v|] eqn:E.
    + destruct (Hvals _ _ E) as (w & -> & ->%py_eqb_eq). done.
    + symmetry. apply dict_get_None. rewrite <- Hkeys. by apply dict_get_None.
  - intros Hget. split.
    + intros k. by rewrite <- !dict_get_is_Some, Hget.
    + intros k v Hv. exists v. rewrite <- Hget. split; [done | apply py_eqb_refl].
Qed.

End more_dict_facts.

(** ** Records are determined by their type and field values *)

Section record_more.

Import ImmutableMap.

Lemma record_ext a b :
  constructed a -> constructed b ->
  __class__ a = __class__ b ->
  (forall s, s ∈ __slots__ (__class__ a) ->
             dict_get s (slot_values a) = dict_get s (slot_values b)) ->
  a = b.
Proof.
  intros [Hnda Hka]%constructed_inv [Hndb Hkb]%constructed_inv Hcls Hvals.
  destruct a as [ca va], b as [cb vb]. simpl in *. subst cb. f_equal.
  apply dict_ext; [by rewrite Hka | congruence |].
  intros k. destruct (decide (k ∈ __slots__ ca)) as [Hin|Hout]; [by apply Hvals|].
  transitivity (@None pyval).
  - apply dict_get_None. by rewrite Hka.
  - symmetry. apply dict_get_None. by rewrite Hkb.
Qed.

Lemma init_constructed cls kwargs r :
  NoDup (dict_keys kwargs) -> __init__ cls kwargs = Ok r -> constructed r.
Proof.
  intros Hnd Hinit. destruct (init_inv _ _ _ Hinit Hnd) as (Hcls & _).
  exists kwargs. by rewrite Hcls.
Qed.

(** The order of the keyword arguments does not matter. *)
Theorem init_order_independent (cls : type) (kwargs kwargs' : dict) (r : t) :
  NoDup (dict_keys kwargs) ->
  kwargs ≡ₚ kwargs' ->
  __init__ cls kwargs = Ok r ->
  __init__ cls kwargs' = Ok r.
Proof.
  intros Hnd Hperm Hinit.
  assert (Hk : dict_keys kwargs ≡ₚ dict_keys kwargs')
    by (unfold dict_keys; by rewrite Hperm).
  assert (Hnd' : NoDup (dict_keys kwargs')) by (by rewrite <- Hk).
  destruct (init_inv _ _ _ Hinit Hnd) as (Hcls & Hnds & Hkeys & Hvals & Hset).
  destruct (init_succeeds cls kwargs') as [r' Hr']; [done | |].
  { intros s. by rewrite <- Hk. }
  destruct (init_inv _ _ _ Hr' Hnd') as (Hcls' & _ & Hkeys' & Hvals' & _).
  rewrite Hr'. f_equal. apply record_ext.
  - by apply (init_constructed cls kwargs').
  - by apply (init_constructed cls kwargs).
  - congruence.
  - intros s Hs. rewrite Hcls' in Hs. rewrite Hvals', Hvals by done.
    symmetry. by apply dict_get_Permutation.
Qed.

(** [store_slots] raises nothing but the [KeyError] of a failed [pop]. *)
Lemma store_slots_only_KeyError slots kwargs stored e :
  store_slots slots kwargs stored = Raise e -> exists s, e = KeyError s /\ s ∈ slots.
Proof.
  revert kwargs stored. induction slots as [|s rest IH]; intros kwargs stored;
    simpl; [discriminate|].
  destruct (dict_pop s kwargs) as [[v kw']|].
  - intros (s' & -> & Hin)%IH. exists s'. split; [done|]. apply elem_of_cons; auto.
  - intros [= <-]. exists s. split; [done|]. apply elem_of_cons; auto.
Qed.

(** A schema that repeats a field name cannot be satisfied: with the
    right names given, the second [pop] of the repeated name raises
    [KeyError]. *)
Theorem init_repeated_slot (cls : type) (kwargs : dict) :
  NoDup (dict_keys kwargs) ->
  ~ NoDup (__slots__ cls) ->
  (forall s, s ∈ dict_keys kwargs <-> s ∈ __slots__ cls) ->
  exists s, s ∈ __slots__ cls /\ __init__ cls kwargs = Raise (KeyError s).
Proof.
  intros Hnd Hdup Hset. unfold __init__.
  rewrite (proj2 (set_eqb_spec _ _) Hset). simpl.
  destruct (store_slots (__slots__ cls) kwargs []) as [out|e] eqn:Hstore.
  - destruct (store_slots_inv _ _ _ _ Hstore Hnd) as (Hnds & _).
    { by intros k ?%elem_of_nil. }
    done.
  - destruct (store_slots_only_KeyError _ _ _ _ Hstore) as (s & -> & Hin).
    exists s. done.
Qed.


(** [update] with a name outside the schema raises [TypeError]. *)
Theorem update_unknown_field (r : t) (partial : dict) (name : string) :
  constructed r ->
  name ∈ dict_keys partial ->
  name ∉ __slots__ (__class__ r) ->
  exists msg, update r partial = Raise (TypeError msg).
Proof.
  intros Hc Hin Hout. unfold update.
  rewrite items_constructed by done. simpl. unfold __init__.
  destruct (set_eqb _ _) eqn:E; simpl; [|eauto].
  pose proof (proj1 (set_eqb_spec _ _) E name) as Hiff.
  destruct Hout. apply Hiff, dict_keys_update_elem_of. auto.
Qed.


End record_more.

Section record_protocol.

Import ImmutableMap.


Lemma collect_first_error {A : Type} (rs : list (result A)) (e : exn) :
  (forall r, r ∈ rs -> (exists a, r = Ok a) \/ r = Raise e) ->
  (exists l, collect rs = Ok l) \/ collect rs = Raise e.
Proof.
  induction rs as [|r rs IH]; intros Hall; [left; by exists []|].
  destruct (Hall r) as [[a ->]| ->]; [apply elem_of_cons; auto | | by right].
  destruct IH as [[l Hl]|Hl]; [intros r' Hr'; apply Hall, elem_of_cons; auto|..].
  - left. exists (a :: l). simpl. by rewrite Hl.
  - right. simpl. by rewrite Hl.
Qed.

Lemma collect_Ok_inv {A : Type} (rs : list (result A)) (l : list A) :
  collect rs = Ok l -> forall r, r ∈ rs -> exists a, r = Ok a.
Proof.
  revert l. induction rs as [|r rs IH]; intros l Hl r' Hr'.
  - by apply elem_of_nil in Hr'.
  - simpl in Hl. destruct r as [a|e]; [|discriminate]. simpl in Hl.
    destruct (collect rs) as [l'|] eqn:E; [|discriminate].
    apply elem_of_cons in Hr' as [->|Hr']; [eauto | by apply (IH l')].
Qed.

(** The hash of a constructed record is a number when every field
    value has a hash, and the [TypeError] of the first field value that
    has none otherwise. *)
Theorem record_hash_outcome (B : builtins) (r : t) :
  constructed r ->
  ((exists h, __hash__ B r = Ok h) <->
   (forall slot value,
       dict_get slot (slot_values r) = Some value ->
       exists h, py_hash B value = Ok h)) /\
  ((exists h, __hash__ B r = Ok h) \/
   __hash__ B r = Raise (TypeError "unhashable type: 'list'")).
Proof.
  intros Hc. destruct (constructed_inv _ Hc) as [Hnd Hkeys].
  assert (Hslot : forall slot, slot ∈ __slots__ (__class__ r) ->
            exists value, dict_get slot (slot_values r) = Some value /\
              (value ← getattr r slot; py_hash B value) = py_hash B value).
  { intros slot Hin. destruct (getattr_slot r slot Hc Hin) as (v & Hv & -> & _).
    exists v. done. }
  unfold __hash__, hash_of_tuple. split; [split|].
  - intros [h Hh] slot value Hv.
    destruct (collect _) as [hs|] eqn:E; [|discriminate].
    assert (Hin : slot ∈ __slots__ (__class__ r)).
    { rewrite <- Hkeys. apply dict_get_is_Some. eauto. }
    destruct (collect_Ok_inv _ _ E (value ← getattr r slot; py_hash B value))
      as [h' Hh'].
    { apply list_elem_of_fmap. by exists slot. }
    destruct (Hslot slot Hin) as (v' & Hv' & Heq).
    assert (v' = value) by congruence. subst v'.
    rewrite Heq in Hh'. eauto.
  - intros Hall.
    destruct (collect_Ok (map (fun slot => value ← getattr r slot; py_hash B value)
                              (__slots__ (__class__ r)))) as [hs ->].
    { intros x (slot & -> & Hin)%list_elem_of_fmap.
      destruct (Hslot slot Hin) as (v & Hv & ->). by apply (Hall slot). }
    simpl. eauto.
  - destruct (collect_first_error
                (map (fun slot => value ← getattr r slot; py_hash B value)
                     (__slots__ (__class__ r)))
                (TypeError "unhashable type: 'list'")) as [[hs ->]| ->].
    + intros x (slot & -> & Hin)%list_elem_of_fmap.
      destruct (Hslot slot Hin) as (v & Hv & ->).
      destruct v; simpl; eauto.
    + left. simpl. eauto.
    + by right.
Qed.



End record_protocol.

Section frozendict_protocol.

Import frozendict.

Lemma frozendict_getitem_lookup f key :
  __getitem__ f key
  = match dict_get key (_items f) with
    | Some value => Ok value
    | None => Raise (KeyError key)
    end.
Proof. reflexivity. Qed.


(** The sorted items of a constructed frozendict are its bindings,
    rearranged by ascending key; [values()] lists the values in that
    order. *)
Theorem frozendict_sorted_items_permutation (f : t) :
  constructed f ->
  exists bindings,
    _sorted_items f = Ok bindings /\
    bindings ≡ₚ _items f /\
    Sorted String.le (dict_keys bindings) /\
    Mapping.items (Mapping.Frozen f) = Ok bindings /\
    Mapping.values (Mapping.Frozen f) = Ok (map snd bindings).
Proof.
  intros Hc. destruct (frozendict_constructed_inv _ Hc) as [Hnd Hkeys].
  destruct (sorted_items_constructed f Hc) as (b & Hb & Hbk & Hndb & Hbv).
  exists b. split_and!.
  - done.
  - apply NoDup_Permutation.
    + by apply (NoDup_fmap_1 fst).
    + by apply (NoDup_fmap_1 fst).
    + intros [k v]. split; intros Hin.
      * apply dict_get_Some_elem_of. rewrite <- Hbv. by apply dict_get_NoDup.
      * apply dict_get_Some_elem_of. rewrite Hbv. by apply dict_get_NoDup.
  - rewrite Hbk, Hkeys. apply sorted_Sorted.
  - simpl. by rewrite items_sorted_items.
  - unfold Mapping.values. simpl. unfold __iter__. rewrite <- Hbk.
    assert (Hall : forall k v, (k, v) ∈ b -> __getitem__ f k = Ok v).
    { intros k v Hin. rewrite frozendict_getitem_lookup, <- Hbv.
      by rewrite (dict_get_NoDup k v). }
    clear Hb Hbk Hndb Hbv. induction b as [|[k v] b IH]; [done|].
    simpl. rewrite (Hall k v) by (apply elem_of_cons; auto). simpl.
    rewrite IH; [done|]. intros k' v' Hin. apply Hall, elem_of_cons; auto.
Qed.

(** Two constructed frozendicts are equal exactly when every item
    lookup gives the same outcome in both. *)
Theorem frozendict_eq_by_lookup (f1 f2 : t) :
  constructed f1 -> constructed f2 ->
  exists answer,
    Mapping.__eq__ (Mapping.Frozen f1) (Instance (Mapping.Frozen f2))
    = Ok (CmpBool answer) /\
    (answer = true <-> forall key, __getitem__ f1 key = __getitem__ f2 key).
Proof.
  intros Hc1 Hc2.
  destruct (sorted_items_constructed f1 Hc1) as (b1 & Hb1 & Hk1 & Hnd1 & Hv1).
  destruct (sorted_items_constructed f2 Hc2) as (b2 & Hb2 & Hk2 & Hnd2 & Hv2).
  exists (dict_eqb b1 b2). split.
  - unfold Mapping.__eq__, Mapping.items.
    rewrite (items_sorted_items f1), (items_sorted_items f2), Hb1, Hb2.
    change (Ok (CmpBool (dict_eqb (dict_of b1) (dict_of b2)))
            = Ok (CmpBool (dict_eqb b1 b2))).
    by rewrite !dict_of_NoDup.
  - rewrite dict_eqb_lookup by done. split.
    + intros H key. rewrite !frozendict_getitem_lookup, <- Hv1, <- Hv2.
      by rewrite H.
    + intros H key. specialize (H key).
      rewrite !frozendict_getitem_lookup, <- Hv1, <- Hv2 in H.
      destruct (dict_get key b1), (dict_get key b2); congruence.
Qed.


End frozendict_protocol.

Section heap_facts.

Import heap.

(** A frozendict built from a mapping keeps that very mapping: a key
    put into the mapping afterwards is found by item lookup, while
    iteration still yields the keys of the time of construction and
    [len] no longer agrees with it. *)
Theorem frozendict_shares_mapping
    (h : heap.t) (a : nat) (kwargs : dict) (key : string) (value : pyval) :
  key ∉ dict_keys (cell h a) ->
  exists f,
    heap.__init__ h [Ref a] kwargs = Ok (h, f) /\
    frozendict.__init__ [Instance (cell h a)] kwargs = Ok (load h f) /\
    let h' := dict_setitem h a key value in
    frozendict.__getitem__ (load h f) key = Raise (KeyError key) /\
    frozendict.__getitem__ (load h' f) key = Ok value /\
    frozendict.__iter__ (load h' f) = frozendict.__iter__ (load h f) /\
    (key ∉ frozendict.__iter__ (load h' f)) /\
    frozendict.__len__ (load h' f) = S (length (frozendict.__iter__ (load h' f))).
Proof.
  intros Hkey.
  exists {| _items := a; _keys := sorted (dict_keys (cell h a)) |}.
  split; [destruct kwargs; reflexivity|].
  split; [destruct kwargs; reflexivity|].
  intros h'. split_and!.
  - rewrite frozendict_getitem_lookup. simpl.
    rewrite (proj2 (dict_get_None _ _) Hkey). reflexivity.
  - rewrite frozendict_getitem_lookup. simpl. rewrite Nat.eqb_refl.
    rewrite dict_get_set, decide_True by done. reflexivity.
  - reflexivity.
  - simpl. by rewrite sorted_Permutation.
  - unfold frozendict.__len__, frozendict.__iter__. simpl. rewrite Nat.eqb_refl.
    rewrite dict_set_fresh by done. rewrite length_app. simpl.
    rewrite sorted_Permutation. unfold dict_keys. rewrite length_fmap. lia.
Qed.

(** A frozendict built from named bindings has a dict of its own: no
    assignment to a dict that existed before changes it. *)
Theorem frozendict_copies_bindings
    (h : heap.t) (kwargs : dict) (a : nat) (key : string) (value : pyval) :
  kwargs <> [] ->
  (a < next h)%nat ->
  exists h' f,
    heap.__init__ h [] kwargs = Ok (h', f) /\
    frozendict.__init__ [] kwargs = Ok (load h' f) /\
    (forall b, (b < next h)%nat -> cell h' b = cell h b) /\
    load (dict_setitem h' a key value) f = load h' f.
Proof.
  intros Hne Ha. destruct kwargs as [|kv kwargs]; [done|].
  eexists. eexists. split_and!.
  - reflexivity.
  - unfold load. simpl. rewrite Nat.eqb_refl. reflexivity.
  - intros b Hb. simpl. destruct (Nat.eqb_spec b (next h)); [lia | done].
  - unfold load. simpl. rewrite Nat.eqb_refl.
    destruct (Nat.eqb_spec (next h) a); [lia | done].
Qed.

End heap_facts.

Section key_facts.

Import ComparableKey.

(** Between two wrappers of one wrapper class, [__eq__] gives the same
    answer in both directions. *)
Theorem key_eq_symmetric (a b : t) :
  __class__ a = __class__ b ->
  __eq__ a (Instance b) = __eq__ b (Instance a).
Proof.
  destruct a as [c ka], b as [cb kb]. simpl. intros <-. unfold __eq__. simpl.
  destruct (decide (type_of_key ka = type_of_key kb)) as [Hty|Hty].
  - rewrite !bool_decide_eq_true_2 by done.
    destruct ka, kb; try discriminate Hty; simpl;
      destruct (negb (issubclass c c)); simpl; try reflexivity;
      f_equal; apply eq_true_iff_eq; rewrite !bool_decide_eq_true;
      split; congruence.
  - rewrite !bool_decide_eq_false_2 by congruence. by rewrite !orb_true_r.
Qed.

(** A wrapper of the base class compares equal to a wrapper of a
    subclass around the same RSA or elliptic-curve key; the subclass
    wrapper, asked first, answers [NotImplemented]; and of the two only
    the subclass wrapper can be hashed. *)
Theorem key_eq_base_and_subclass (B : builtins) (c : cls) (k : key) :
  c <> ComparableKey ->
  is_Some (key_private_numbers k) \/ is_Some (key_public_numbers k) ->
  __eq__ (__init__ ComparableKey k) (Instance (__init__ c k)) = CmpBool true /\
  __eq__ (__init__ c k) (Instance (__init__ ComparableKey k)) = NotImplemented /\
  exists msg, __hash__ B (__init__ ComparableKey k) = Raise (TypeError msg).
Proof.
  intros Hc Hnum. split_and!.
  - unfold __eq__. simpl. rewrite bool_decide_eq_true_2 by done. simpl.
    destruct k; simpl in *; try (by rewrite bool_decide_eq_true_2);
      destruct Hnum as [[? [=]]|[? [=]]].
  - unfold __eq__. simpl. by destruct c.
  - eexists. reflexivity.
Qed.

(** [public_key()] of an elliptic-curve wrapper can be called again on
    its result, and returns it unchanged. *)
Theorem ec_public_key_idempotent (numbers : ec.EllipticCurvePrivateNumbers) :
  exists w,
    public_key (__init__ ComparableECKey (EllipticCurvePrivateKey numbers))
      = Ok (Wrapper w) /\
    _wrapped w = EllipticCurvePublicKey (ec.public_numbers numbers) /\
    public_key w = Ok (Wrapper w).
Proof. eexists. split_and!; reflexivity. Qed.

End key_facts.

(** ** The theorems above at the values of the examples *)

Lemma ab_constructed : frozendict.constructed more_examples.ab.
Proof.
  exists [], [("a", PyInt 1); ("b", PyInt 2)]. split_and!.
  - apply (bool_decide_unpack _). vm_compute. exact I.
  - by intros mapping ?%elem_of_nil.
  - reflexivity.
Qed.

Lemma ba_constructed : frozendict.constructed more_examples.ba.
Proof.
  exists [Instance [("b", PyInt 2); ("a", PyInt 1)]], []. split_and!.
  - apply NoDup_nil_2.
  - intros mapping Hin%list_elem_of_singleton. injection Hin as ->.
    apply (bool_decide_unpack _). vm_compute. exact I.
  - reflexivity.
Qed.

(** [Header(alg="RS256", typ="JWT")] is [Header(typ="JWT", alg="RS256")]. *)
Lemma init_order_independent_witness :
  ImmutableMap.__init__ examples.Header
    [("alg", PyStr "RS256"); ("typ", PyStr "JWT")]
  = Ok examples.header.
Proof.
  apply (init_order_independent examples.Header examples.jwt_rs256).
  - apply (bool_decide_unpack _). vm_compute. exact I.
  - apply perm_swap.
  - reflexivity.
Defined.

(** [Twice(x=1)], for the schema [("x", "x")]. *)
Lemma init_repeated_slot_witness :
  exists s,
    s ∈ ["x"; "x"] /\
    ImmutableMap.__init__ more_examples.Twice [("x", PyInt 1)]
    = Raise (KeyError s).
Proof.
  apply (init_repeated_slot more_examples.Twice [("x", PyInt 1)]).
  - apply (bool_decide_unpack _). vm_compute. exact I.
  - intros Hnd. apply (bool_decide_pack _) in Hnd. vm_compute in Hnd. exact Hnd.
  - intros s. simpl. rewrite !elem_of_cons. tauto.
Defined.

(** [header.update(kid="1")] *)
Lemma update_unknown_field_witness :
  exists msg,
    ImmutableMap.update examples.header [("kid", PyStr "1")]
    = Raise (TypeError msg).
Proof.
  apply (update_unknown_field examples.header [("kid", PyStr "1")] "kid").
  - exact header_constructed.
  - apply (bool_decide_unpack _). vm_compute. exact I.
  - apply (bool_decide_unpack _). vm_compute. exact I.
Defined.



(** The hash of the header, whose two values are text. *)
Lemma record_hash_outcome_witness :
  exists h, ImmutableMap.__hash__ cpython.interpreter examples.header = Ok h.
Proof.
  destruct (record_hash_outcome cpython.interpreter examples.header
              header_constructed) as [[_ Hok] _].
  apply Hok. intros slot value Hget.
  destruct value; try (eexists; reflexivity).
  exfalso. cbn -[String.eqb] in Hget.
  destruct (String.eqb "typ" slot); [discriminate|].
  destruct (String.eqb "alg" slot); discriminate.
Defined.




(** The sorted items of [frozendict({"b": 2, "a": 1})]. *)
Lemma frozendict_sorted_items_permutation_witness :
  exists bindings,
    frozendict._sorted_items more_examples.ba = Ok bindings /\
    bindings ≡ₚ [("b", PyInt 2); ("a", PyInt 1)] /\
    Sorted String.le (dict_keys bindings).
Proof.
  destruct (frozendict_sorted_items_permutation more_examples.ba ba_constructed)
    as (bindings & H1 & H2 & H3 & _).
  exists bindings. done.
Defined.

(** [frozendict(a=1, b=2) == frozendict({"b": 2, "a": 1})]. *)
Lemma frozendict_eq_by_lookup_witness :
  exists answer,
    Mapping.__eq__ (Mapping.Frozen more_examples.ab)
                   (Instance (Mapping.Frozen more_examples.ba))
    = Ok (CmpBool answer) /\
    (answer = true <->
     forall key, frozendict.__getitem__ more_examples.ab key
                 = frozendict.__getitem__ more_examples.ba key).
Proof.
  exact (frozendict_eq_by_lookup more_examples.ab more_examples.ba
           ab_constructed ba_constructed).
Defined.

(** [m = {"a": 1}; f = frozendict(m); m["b"] = 2]. *)
Lemma frozendict_shares_mapping_witness :
  exists f,
    heap.__init__ more_examples.one_dict [heap.Ref 0] [] = Ok (more_examples.one_dict, f) /\
    frozendict.__getitem__
      (heap.load (heap.dict_setitem more_examples.one_dict 0 "b" (PyInt 2)) f) "b"
    = Ok (PyInt 2) /\
    frozendict.__iter__
      (heap.load (heap.dict_setitem more_examples.one_dict 0 "b" (PyInt 2)) f)
    = ["a"].
Proof.
  destruct (frozendict_shares_mapping more_examples.one_dict 0 [] "b" (PyInt 2))
    as (f & Hinit & _ & _ & Hget & Hiter & _).
  - apply (bool_decide_unpack _). vm_compute. exact I.
  - exists f. split_and!; [done | done |].
    rewrite Hiter. vm_compute in Hinit. injection Hinit as <-. reflexivity.
Defined.

(** [m = {"a": 1}; f = frozendict(z=1); m["b"] = 2]. *)
Lemma frozendict_copies_bindings_witness :
  exists h' f,
    heap.__init__ more_examples.one_dict [] [("z", PyInt 1)] = Ok (h', f) /\
    heap.load (heap.dict_setitem h' 0 "b" (PyInt 2)) f = heap.load h' f.
Proof.
  destruct (frozendict_copies_bindings more_examples.one_dict
              [("z", PyInt 1)] 0 "b" (PyInt 2))
    as (h' & f & Hinit & _ & _ & Hsame).
  - discriminate.
  - simpl. lia.
  - exists h', f. done.
Defined.

(** Two wrappers of the class [ComparableRSAKey]. *)
Lemma key_eq_symmetric_witness :
  ComparableKey.__eq__
    (ComparableKey.__init__ ComparableKey.ComparableRSAKey examples.rsa_private)
    (Instance (ComparableKey.__init__ ComparableKey.ComparableRSAKey
                 examples.ec_private))
  = ComparableKey.__eq__
    (ComparableKey.__init__ ComparableKey.ComparableRSAKey examples.ec_private)
    (Instance (ComparableKey.__init__ ComparableKey.ComparableRSAKey
                 examples.rsa_private)).
Proof. apply key_eq_symmetric. reflexivity. Defined.

(** [ComparableKey(k)] and [ComparableRSAKey(k)] for an RSA private key. *)
Lemma key_eq_base_and_subclass_witness :
  ComparableKey.__eq__
    (ComparableKey.__init__ ComparableKey.ComparableKey examples.rsa_private)
    (Instance (ComparableKey.__init__ ComparableKey.ComparableRSAKey
                 examples.rsa_private))
  = CmpBool true /\
  ComparableKey.__eq__
    (ComparableKey.__init__ ComparableKey.ComparableRSAKey examples.rsa_private)
    (Instance (ComparableKey.__init__ ComparableKey.ComparableKey
                 examples.rsa_private))
  = NotImplemented /\
  exists msg,
    ComparableKey.__hash__ cpython.interpreter
      (ComparableKey.__init__ ComparableKey.ComparableKey examples.rsa_private)
    = Raise (TypeError msg).
Proof.
  apply key_eq_base_and_subclass.
  - discriminate.
  - left. simpl. eauto.
Defined.
